(** * dry-rest-permissions: the permission gate, the filter router, the
      permissions field and the staff decorator of
      [dry_rest_permissions/generics.py], embedded in Rocq.

    Python objects are looked up by attribute name, so a class or an
    instance is a finite map from attribute names to methods.  The methods
    are the developer's: they may read and change anything and may raise,
    so they live in a monad [Py] that threads an abstract world and
    carries Python exceptions.  "The method is not called" then means
    what it means for the program: neither the answer nor the world
    depends on that method. *)

From stdpp Require Import gmap strings list fin_maps.

Set Default Proof Using "Type".
#[local] Set Warnings "-clear-no-such-hyp".

(** ** Exceptions and the evaluation monad *)

Inductive Exn : Type :=
  | AssertionError (msg : string)
  | AttributeError (attr : string)
  | IndexError
  | KeyError (key : string).

Inductive Outcome (A : Type) : Type :=
  | Ok (a : A)
  | Raise (e : Exn).
Arguments Ok {A} a.
Arguments Raise {A} e.

(** A computation reads and changes the world and ends in a value or in
    an exception. *)
Definition Py (World A : Type) : Type := World -> Outcome A * World.

Definition py_ret {World A} (a : A) : Py World A := fun w => (Ok a, w).

Definition py_raise {World A} (e : Exn) : Py World A := fun w => (Raise e, w).

Definition py_bind {World A B} (m : Py World A) (k : A -> Py World B)
    : Py World B :=
  fun w => match m w with
           | (Ok a, w') => k a w'
           | (Raise e, w') => (Raise e, w')
           end.

Notation "x <- m ;; k" := (py_bind m (fun x => k))
  (at level 100, m at next level, right associativity).

(** Python's [assert cond, msg]. *)
Definition assert {World} (cond : bool) (msg : string) : Py World unit :=
  if cond then py_ret tt else py_raise (AssertionError msg).

(** Python's [a and b] on booleans: [b] is evaluated only when [a] is
    true. *)
Definition and_then {World} (a b : Py World bool) : Py World bool :=
  x <- a ;; if x then b else py_ret false.

(** Python's [needle in hay] on strings. *)
Fixpoint contains (needle hay : string) : bool :=
  String.prefix needle hay ||
  match hay with
  | EmptyString => false
  | String _ rest => contains needle rest
  end.

(** [args[i]] on a tuple. *)
Definition index {World A} (args : list A) (i : nat) : Py World A :=
  match args !! i with
  | Some a => py_ret a
  | None => py_raise IndexError
  end.

(** ** Requests and the gate's configuration *)

Record User : Type := {
  is_staff : bool;
  is_superuser : bool;
  is_authenticated : bool
}.

(** [user] is [None] when [request.user] is Python's [None]. *)
Record Request : Type := {
  method : string;
  user : option User
}.

(** The three class attributes of [DRYPermissions]; a subclass overrides
    them. *)
Record DRYPermissions : Type := {
  global_permissions : bool;
  object_permissions : bool;
  partial_update_is_update : bool
}.

Definition DRYPermissions_default : DRYPermissions :=
  {| global_permissions := true; object_permissions := true;
     partial_update_is_update := true |}.

Definition DRYGlobalPermissions : DRYPermissions :=
  {| global_permissions := true; object_permissions := false;
     partial_update_is_update := true |}.

Definition DRYObjectPermissions : DRYPermissions :=
  {| global_permissions := false; object_permissions := true;
     partial_update_is_update := true |}.

Definition _get_action (self : DRYPermissions) (action : string) : string :=
  if partial_update_is_update self && String.eqb action "partial_update"
  then "update" else action.

Section Generics.

(** The state the developer's methods can observe and change. *)
Context {World : Type}.

(** The querysets of the host framework. *)
Context {QuerySet : Type}.

(** [rest_framework.permissions.SAFE_METHODS], a constant of the host
    framework. *)
Variable SAFE_METHODS : list string.

(** ** Models, instances and views *)

(** A permission method as the gate calls it: one argument, the request. *)
Definition Method : Type := Request -> Py World bool.

(** A model class: what [str.format] prints for it, and its attributes. *)
Record ModelClass : Type := {
  model_repr : string;
  model_attrs : gmap string Method
}.

(** A model instance, with its methods bound to it.  [obj_user] is its
    [user] attribute: [None] when the instance has no such attribute,
    [Some u] when it has one (for a model with a [user] field, say), [u]
    being [None] for Python's [None]. *)
Record Instance : Type := {
  obj_attrs : gmap string Method;
  obj_user : option (option User)
}.

(** A view.  [action] is [None] when the view has no [action] attribute;
    [Meta_model] is [view.get_serializer_class().Meta.model];
    [permission_classes] is what [get_permissions()] instantiates. *)
Record View : Type := {
  view_class_name : string;
  action : option string;
  Meta_model : option ModelClass;
  lookup_field : string;
  kwargs : gmap string string;
  permission_classes : list DRYPermissions
}.

(** [hasattr(o, name)], [getattr(o, name)] and [getattr(o, name)(request)]
    on an attribute table. *)
Definition hasattr (attrs : gmap string Method) (name : string) : bool :=
  bool_decide (is_Some (attrs !! name)).

Definition getattr {A} (attrs : gmap string A) (name : string) : Py World A :=
  match attrs !! name with
  | Some m => py_ret m
  | None => py_raise (AttributeError name)
  end.

Definition call_attr (attrs : gmap string Method) (name : string)
    (request : Request) : Py World bool :=
  m <- getattr attrs name ;; m request.

(** ** DRYPermissions *)

(** ['{}'.format(model_class)]: a class prints its representation, a
    missing model prints as [None]. *)
Definition format_model (model_class : option ModelClass) : string :=
  match model_class with
  | Some c => model_repr c
  | None => "None"
  end.

(** [if action_method_name:] is the truth value of the name: [None] and
    the empty string are false. *)
Definition _get_error_message (model_class : option ModelClass)
    (method_name : string) (action_method_name : option string) : string :=
  match action_method_name with
  | Some (String c s) =>
      "'" +:+ format_model model_class +:+ "' does not have '" +:+ method_name
        +:+ "' or '" +:+ String c s +:+ "' defined."
  | _ =>
      "'" +:+ format_model model_class +:+ "' does not have '" +:+ method_name
        +:+ "' defined."
  end.

(** The last eight lines of both checks, which differ in the two method
    names only: the general read or write method, chosen by the safety of
    the HTTP method. *)
Definition general_check (attrs : gmap string Method)
    (model_class : option ModelClass) (read_name write_name : string)
    (action_method_name : option string) (request : Request)
    : Py World bool :=
  if bool_decide (method request ∈ SAFE_METHODS) then
    _ <- assert (hasattr attrs read_name)
           (_get_error_message model_class read_name action_method_name) ;;
    call_attr attrs read_name request
  else
    _ <- assert (hasattr attrs write_name)
           (_get_error_message model_class write_name action_method_name) ;;
    call_attr attrs write_name request.

Definition has_permission (self : DRYPermissions) (request : Request)
    (view : View) : Py World bool :=
  if negb (global_permissions self) then py_ret true else
  match Meta_model view with
  | None =>
      py_raise (AssertionError
        ("global_permissions set to true without a model set on the serializer for '"
           +:+ view_class_name view +:+ "'"))
  | Some model_class =>
      match action view with
      | Some a =>
          let action_method_name :=
            "has_" +:+ _get_action self a +:+ "_permission" in
          if hasattr (model_attrs model_class) action_method_name then
            call_attr (model_attrs model_class) action_method_name request
          else
            general_check (model_attrs model_class) (Some model_class)
              "has_read_permission" "has_write_permission"
              (Some action_method_name) request
      | None =>
          general_check (model_attrs model_class) (Some model_class)
            "has_read_permission" "has_write_permission" None request
      end
  end.

Definition has_object_permission (self : DRYPermissions) (request : Request)
    (view : View) (obj : Instance) : Py World bool :=
  if negb (object_permissions self) then py_ret true else
  let model_class := Meta_model view in
  match action view with
  | Some a =>
      let action_method_name :=
        "has_object_" +:+ _get_action self a +:+ "_permission" in
      if hasattr (obj_attrs obj) action_method_name then
        call_attr (obj_attrs obj) action_method_name request
      else
        general_check (obj_attrs obj) model_class
          "has_object_read_permission" "has_object_write_permission"
          (Some action_method_name) request
  | None =>
      general_check (obj_attrs obj) model_class
        "has_object_read_permission" "has_object_write_permission"
        None request
  end.

(** [tests.py], [DummyViewSet.dummy_check_permission]: each loop stops at
    the first permission that answers false. *)
Fixpoint all_permit (checks : list (Py World bool)) : Py World bool :=
  match checks with
  | [] => py_ret true
  | c :: rest => b <- c ;; if b then all_permit rest else py_ret false
  end.

Definition dummy_check_permission (self : View) (request : Request)
    (obj : Instance) : Py World bool :=
  g <- all_permit
         (map (fun permission => has_permission permission request self)
              (permission_classes self)) ;;
  if g then
    all_permit
      (map (fun permission => has_object_permission permission request self obj)
           (permission_classes self))
  else py_ret false.

(** ** DRYPermissionFiltersBase *)

Definition FilterMethod : Type := Request -> QuerySet -> View -> Py World QuerySet.

(** A filter backend: the class attribute [action_routing] and the
    methods the subclass defines. *)
Record DRYPermissionFiltersBase : Type := {
  action_routing : bool;
  subclass_methods : gmap string FilterMethod
}.

(** The base class's own [filter_list_queryset]. *)
Definition filter_list_queryset : FilterMethod :=
  fun request queryset view =>
    py_raise (AssertionError
      ("Method filter_list_queryset must be overridden on '"
         +:+ view_class_name view +:+ "'")).

(** Attribute lookup on a backend instance for a filter method: the
    subclass first, then the base class, whose only method named
    [filter_..._queryset] is [filter_list_queryset]. *)
Definition getattr_filter (self : DRYPermissionFiltersBase) (name : string)
    : Py World FilterMethod :=
  match subclass_methods self !! name with
  | Some m => py_ret m
  | None =>
      if String.eqb name "filter_list_queryset" then py_ret filter_list_queryset
      else py_raise (AttributeError name)
  end.

Definition filter_queryset (self : DRYPermissionFiltersBase)
    (request : Request) (queryset : QuerySet) (view : View)
    : Py World QuerySet :=
  if negb (bool_decide (is_Some (kwargs view !! lookup_field view))) then
    if negb (action_routing self) then
      m <- getattr_filter self "filter_list_queryset" ;;
      m request queryset view
    else
      a <- match action view with
           | Some a => py_ret a
           | None => py_raise (AttributeError "action")
           end ;;
      let method_name := "filter_" +:+ a +:+ "_queryset" in
      m <- getattr_filter self method_name ;;
      m request queryset view
  else py_ret queryset.

(** ** Python values passed as arguments *)

Inductive PyVal : Type :=
  | VNone
  | VBool (b : bool)
  | VStr (s : string)
  | VRequest (r : Request)
  | VInstance (o : Instance).

(** ** DRYPermissionsField *)

(** The inner dictionary of [action_method_map]: the keys ['global'] and
    ['object'], each present or not. *)
Record MethodNames : Type := {
  mn_global : option string;
  mn_object : option string
}.

(** The serializer a field is bound to: [parent.Meta.model] and the
    serializer's context. *)
Record Serializer : Type := {
  serializer_class_name : string;
  serializer_model : option ModelClass;
  context : gmap string Request
}.

(** A field.  [action_method_map] is a Python dictionary, kept in
    insertion order; [base_attrs] are the attributes the base class's
    constructor sets on the instance; [parent] is what [fields.Field.bind]
    sets. *)
Record DRYPermissionsField : Type := {
  action_method_map : list (string * MethodNames);
  global_only : bool;
  object_only : bool;
  actions : list string;
  base_attrs : gmap string PyVal;
  parent : option Serializer
}.

Definition default_actions : list string :=
  ["create"; "retrieve"; "update"; "destroy"; "write"; "read"].

(** [fields.Field.__init__], the constructor of the framework's base
    class: from the keyword arguments it is given it sets the attributes
    of the instance, or raises. *)
Variable Field_init : gmap string PyVal -> Py World (gmap string PyVal).


(** [d.get(k, None)] and [d[k] = v] on an insertion-ordered dictionary: a
    key that is present keeps its place. *)
Fixpoint dict_get {A} (k : string) (d : list (string * A)) : option A :=
  match d with
  | [] => None
  | (k', v) :: rest => if String.eqb k k' then Some v else dict_get k rest
  end.

Fixpoint dict_set {A} (k : string) (v : A) (d : list (string * A))
    : list (string * A) :=
  match d with
  | [] => [(k, v)]
  | (k', v') :: rest =>
      if String.eqb k k' then (k', v) :: rest else (k', v') :: dict_set k v rest
  end.

(** One turn of the loop of [bind]. *)
Definition bind_action (global_only object_only : bool) (model : ModelClass)
    (map : list (string * MethodNames)) (action : string)
    : list (string * MethodNames) :=
  let map1 :=
    if negb object_only then
      let global_method_name := "has_" +:+ action +:+ "_permission" in
      if hasattr (model_attrs model) global_method_name then
        dict_set action
          {| mn_global := Some global_method_name; mn_object := None |} map
      else map
    else map in
  if negb global_only then
    let object_method_name := "has_object_" +:+ action +:+ "_permission" in
    if hasattr (model_attrs model) object_method_name then
      let map2 :=
        match dict_get action map1 with
        | None => dict_set action {| mn_global := None; mn_object := None |} map1
        | Some _ => map1
        end in
      match dict_get action map2 with
      | Some names =>
          dict_set action
            {| mn_global := mn_global names;
               mn_object := Some object_method_name |} map2
      | None => map2
      end
    else map1
  else map1.

Definition bind (self : DRYPermissionsField) (field_name : string)
    (parent : Serializer) : Py World DRYPermissionsField :=
  match serializer_model parent with
  | None =>
      py_raise (AssertionError
        ("DRYPermissions is used on '" +:+ serializer_class_name parent
           +:+ "' without a model"))
  | Some model =>
      py_ret {| action_method_map :=
                  fold_left (bind_action (global_only self) (object_only self) model)
                    (actions self) (action_method_map self);
                global_only := global_only self;
                object_only := object_only self;
                actions := actions self;
                base_attrs := base_attrs self;
                parent := Some parent |}
  end.

(** [self.parent.Meta.model] and [self.context['request']]. *)
Definition parent_model_attrs (self : DRYPermissionsField)
    : Py World (gmap string Method) :=
  match parent self with
  | None => py_raise (AttributeError "Meta")
  | Some p =>
      match serializer_model p with
      | Some model => py_ret (model_attrs model)
      | None => py_ret ∅
      end
  end.

Definition context_request (self : DRYPermissionsField) : Py World Request :=
  match parent self with
  | None => py_raise (KeyError "request")
  | Some p =>
      match context p !! "request" with
      | Some r => py_ret r
      | None => py_raise (KeyError "request")
      end
  end.

(** One turn of the loop of [to_representation]. *)
Definition represent_action (self : DRYPermissionsField) (value : Instance)
    (results : gmap string bool) (entry : string * MethodNames)
    : Py World (gmap string bool) :=
  let '(action, method_names) := entry in
  results1 <-
    match mn_global method_names with
    | Some global_name =>
        if negb (object_only self) then
          attrs <- parent_model_attrs self ;;
          m <- getattr attrs global_name ;;
          request <- context_request self ;;
          r <- m request ;;
          py_ret (<[action := r]> results)
        else py_ret results
    | None => py_ret results
    end ;;
  match mn_object method_names with
  | Some object_name =>
      if negb (global_only self) && default true (results1 !! action) then
        m <- getattr (obj_attrs value) object_name ;;
        request <- context_request self ;;
        r <- m request ;;
        py_ret (<[action := r]> results1)
      else py_ret results1
  | None => py_ret results1
  end.

Fixpoint for_each {A S} (body : S -> A -> Py World S) (l : list A) (s : S)
    : Py World S :=
  match l with
  | [] => py_ret s
  | x :: rest => s' <- body s x ;; for_each body rest s'
  end.

Definition to_representation (self : DRYPermissionsField) (value : Instance)
    : Py World (gmap string bool) :=
  for_each (represent_action self value) (action_method_map self) ∅.

(** ** allow_staff_or_superuser *)

(** A function object: its [__name__] and what calling it with
    [*args, **kwargs] does. *)
Record Function : Type := {
  __name__ : string;
  call : list PyVal -> gmap string PyVal -> Py World bool
}.

(** [request.user] and [user.is_staff or user.is_superuser].  The
    attribute is read from whatever object stands at the request's place:
    a request, or an instance that has a [user] attribute of its own. *)
Definition get_user (request : PyVal) : Py World (option User) :=
  match request with
  | VRequest r => py_ret (user r)
  | VInstance o =>
      match obj_user o with
      | Some u => py_ret u
      | None => py_raise (AttributeError "user")
      end
  | _ => py_raise (AttributeError "user")
  end.

Definition staff_or_superuser (u : option User) : Py World bool :=
  match u with
  | Some u => py_ret (is_staff u || is_superuser u)
  | None => py_raise (AttributeError "is_staff")
  end.

Definition allow_staff_or_superuser (func : Function) : Function :=
  let is_object_permission := contains "has_object" (__name__ func) in
  {| __name__ := __name__ func;
     call := fun args kwargs =>
       request <- index args 0 ;;
       request <- (if is_object_permission then index args 1
                   else py_ret request) ;;
       u <- get_user request ;;
       privileged <- staff_or_superuser u ;;
       if privileged then py_ret true else call func args kwargs |}.

(** ** authenticated_users and unauthenticated_users *)

(** [request.user and request.user.is_authenticated]: a missing user is
    false, and its attribute is not read. *)
Definition user_is_authenticated (u : option User) : bool :=
  match u with
  | Some u => is_authenticated u
  | None => false
  end.

Definition authenticated_users (func : Function) : Function :=
  let is_object_permission := contains "has_object" (__name__ func) in
  {| __name__ := __name__ func;
     call := fun args kwargs =>
       request <- index args 0 ;;
       request <- (if is_object_permission then index args 1
                   else py_ret request) ;;
       u <- get_user request ;;
       if negb (user_is_authenticated u) then py_ret false
       else call func args kwargs |}.

Definition unauthenticated_users (func : Function) : Function :=
  let is_object_permission := contains "has_object" (__name__ func) in
  {| __name__ := __name__ func;
     call := fun args kwargs =>
       request <- index args 0 ;;
       request <- (if is_object_permission then index args 1
                   else py_ret request) ;;
       u <- get_user request ;;
       if user_is_authenticated u then py_ret false
       else call func args kwargs |}.

End Generics.

(** Following the spec's words (4.1, step 5, with no action to name):
    the general method alone, read for a safe HTTP method and write for an
    unsafe one, and a configuration error that names only that method
    when it is absent. *)
Definition spec_general_only {World} (safe : bool)
    (attrs : gmap string (@Method World)) (read_name write_name repr : string)
    (request : Request) : Py World bool :=
  let name := if safe then read_name else write_name in
  match attrs !! name with
  | Some m => m request
  | None =>
      py_raise (AssertionError
        ("'" +:+ repr +:+ "' does not have '" +:+ name +:+ "' defined."))
  end.








(** [view.action = action], as the tests set it. *)
Definition set_action {World} (a : string) (view : @View World) : @View World :=
  {| view_class_name := view_class_name view;
     action := Some a;
     Meta_model := Meta_model view;
     lookup_field := lookup_field view;
     kwargs := kwargs view;
     permission_classes := permission_classes view |}.

(** ** Concrete models, requests and views

    The world of the examples is the list of the names of the methods
    invoked so far: each method appends its own name and answers a
    constant. *)

Definition logged (name : string) (answer : bool) : @Method (list string) :=
  fun _ w => (Ok answer, w ++ [name]).

Definition DRF_SAFE_METHODS : list string := ["GET"; "HEAD"; "OPTIONS"].

Definition plain_user : User :=
  {| is_staff := false; is_superuser := false; is_authenticated := true |}.

Definition staff_user : User :=
  {| is_staff := true; is_superuser := false; is_authenticated := true |}.

Definition request_retrieve : Request :=
  {| method := "GET"; user := Some plain_user |}.

Definition request_update : Request :=
  {| method := "PUT"; user := Some plain_user |}.

Definition request_partial_update : Request :=
  {| method := "PATCH"; user := Some plain_user |}.

Definition request_staff : Request :=
  {| method := "GET"; user := Some staff_user |}.

(** A model with the general methods and a specific [retrieve] pair. *)
Definition TestModel : @ModelClass (list string) :=
  {| model_repr := "<class 'tests.TestModel'>";
     model_attrs :=
       <["has_read_permission" := logged "has_read_permission" false]>
       (<["has_write_permission" := logged "has_write_permission" true]>
       (<["has_retrieve_permission" := logged "has_retrieve_permission" true]>
       (<["has_object_retrieve_permission" :=
            logged "has_object_retrieve_permission" true]> ∅))) |}.

Definition test_instance : @Instance (list string) :=
  {| obj_attrs :=
       <["has_object_read_permission" := logged "has_object_read_permission" true]>
       (<["has_object_write_permission" := logged "has_object_write_permission" false]>
       (<["has_object_retrieve_permission" :=
            logged "has_object_retrieve_permission" true]> ∅));
     obj_user := None |}.

(** A model that names its specific methods after [partial_update]. *)
Definition PartialModel : @ModelClass (list string) :=
  {| model_repr := "<class 'tests.PartialModel'>";
     model_attrs :=
       <["has_partial_update_permission" :=
           logged "has_partial_update_permission" false]>
       (<["has_write_permission" := logged "has_write_permission" true]> ∅) |}.

(** A model with a specific [update] method and no [partial_update] one. *)
Definition UpdateModel : @ModelClass (list string) :=
  {| model_repr := "<class 'tests.UpdateModel'>";
     model_attrs :=
       <["has_update_permission" := logged "has_update_permission" false]>
       (<["has_write_permission" := logged "has_write_permission" true]> ∅) |}.

(** A list-style view (no lookup key among its keyword arguments)
    guarded by one permission class. *)
Definition guarded_view (permission : DRYPermissions)
    (model : @ModelClass (list string)) (a : option string)
    : @View (list string) :=
  {| view_class_name := "TestViewSet";
     action := a;
     Meta_model := Some model;
     lookup_field := "pk";
     kwargs := ∅;
     permission_classes := [permission] |}.

Definition test_view (model : @ModelClass (list string)) (a : option string)
    : @View (list string) :=
  guarded_view DRYPermissions_default model a.

(** The same view serving [/dummy/1]. *)
Definition detail_view (model : @ModelClass (list string)) (a : option string)
    : @View (list string) :=
  {| view_class_name := "TestViewSet";
     action := a;
     Meta_model := Some model;
     lookup_field := "pk";
     kwargs := {["pk" := "1"]};
     permission_classes := [DRYPermissions_default] |}.

(** A gate that keeps [partial_update] apart from [update]. *)
Definition DRYPermissions_separate : DRYPermissions :=
  {| global_permissions := true; object_permissions := true;
     partial_update_is_update := false |}.

(** A model and an instance with no permission method at all. *)
Definition BareModel : @ModelClass (list string) :=
  {| model_repr := "<class 'tests.BareModel'>"; model_attrs := ∅ |}.

Definition bare_instance : @Instance (list string) :=
  {| obj_attrs := ∅; obj_user := None |}.

Definition partial_instance : @Instance (list string) :=
  {| obj_attrs :=
       <["has_object_partial_update_permission" :=
           logged "has_object_partial_update_permission" true]> ∅;
     obj_user := None |}.

(** Filter backends over querysets of primary keys: one that overrides
    [filter_list_queryset], one that routes by action. *)
Definition keep_even : @FilterMethod (list string) (list nat) :=
  fun _ queryset _ w => (Ok (List.filter Nat.even queryset), w ++ ["filter"]).

Definition TestFilterBackend : @DRYPermissionFiltersBase (list string) (list nat) :=
  {| action_routing := false;
     subclass_methods := {["filter_list_queryset" := keep_even]} |}.

Definition RoutedFilterBackend : @DRYPermissionFiltersBase (list string) (list nat) :=
  {| action_routing := true;
     subclass_methods := {["filter_custom_action1_queryset" := keep_even]} |}.

(** A serializer over [TestModel] with a request in its context, and the
    field of the tests before it is bound. *)
Definition TestSerializer : @Serializer (list string) :=
  {| serializer_class_name := "TestSerializer";
     serializer_model := Some TestModel;
     context := {["request" := request_retrieve]} |}.

Definition permissions_field : @DRYPermissionsField (list string) :=
  {| action_method_map := [];
     global_only := false;
     object_only := false;
     actions := default_actions ++ ["custom_action1"; "custom_action2"];
     base_attrs := <["read_only" := VBool true]> {["source" := VStr "*"]};
     parent := None |}.

(** Permission functions as the decorator receives them. *)
Definition has_object_publish_permission : @Function (list string) :=
  {| __name__ := "has_object_publish_permission";
     call := fun _ _ w => (Ok false, w ++ ["has_object_publish_permission"]) |}.

Definition has_publish_permission : @Function (list string) :=
  {| __name__ := "has_publish_permission";
     call := fun _ _ w => (Ok false, w ++ ["has_publish_permission"]) |}.

Definition has_list_objects_permission : @Function (list string) :=
  {| __name__ := "has_list_objects_permission";
     call := fun _ _ w => (Ok false, w ++ ["has_list_objects_permission"]) |}.

(** Users and requests for the decorators: nobody logged in, and a
    request whose [user] is [None]. *)
Definition anonymous_user : User :=
  {| is_staff := false; is_superuser := false; is_authenticated := false |}.

Definition request_anonymous : Request :=
  {| method := "GET"; user := Some anonymous_user |}.

Definition request_without_user : Request :=
  {| method := "GET"; user := None |}.

(** A staff account that is not logged in. *)
Definition stale_staff_user : User :=
  {| is_staff := true; is_superuser := false; is_authenticated := false |}.

Definition request_stale_staff : Request :=
  {| method := "GET"; user := Some stale_staff_user |}.

(** A view whose serializer has no model. *)
Definition modelless_view : @View (list string) :=
  {| view_class_name := "TestViewSet";
     action := Some "retrieve";
     Meta_model := None;
     lookup_field := "pk";
     kwargs := ∅;
     permission_classes := [DRYPermissions_default] |}.

Definition ModellessSerializer : @Serializer (list string) :=
  {| serializer_class_name := "ModellessSerializer";
     serializer_model := None;
     context := {["request" := request_retrieve]} |}.

(** The field of the tests in its two restricted modes. *)
Definition global_only_field : @DRYPermissionsField (list string) :=
  {| action_method_map := [];
     global_only := true;
     object_only := false;
     actions := default_actions ++ ["custom_action1"; "custom_action2"];
     base_attrs := <["read_only" := VBool true]> {["source" := VStr "*"]};
     parent := None |}.




(** A view guarded by the two shortcut classes together. *)
Definition doubly_guarded_view (model : @ModelClass (list string))
    (a : option string) : @View (list string) :=
  {| view_class_name := "TestViewSet";
     action := a;
     Meta_model := Some model;
     lookup_field := "pk";
     kwargs := ∅;
     permission_classes := [DRYGlobalPermissions; DRYObjectPermissions] |}.

(** A routed backend that also overrides [filter_list_queryset]. *)
Definition drop_all : @FilterMethod (list string) (list nat) :=
  fun _ _ _ w => (Ok [], w ++ ["drop_all"]).

Definition RoutedWithListBackend
    : @DRYPermissionFiltersBase (list string) (list nat) :=
  {| action_routing := true;
     subclass_methods :=
       <["filter_list_queryset" := drop_all]>
         {["filter_custom_action1_queryset" := keep_even]} |}.


(** An instance with the object method for [update]. *)
Definition update_instance : @Instance (list string) :=
  {| obj_attrs :=
       <["has_object_update_permission" :=
           logged "has_object_update_permission" true]> ∅;
     obj_user := None |}.

(** An instance with a [user] attribute of its own, a staff account. *)
Definition staff_owned_instance : @Instance (list string) :=
  {| obj_attrs := ∅; obj_user := Some (Some staff_user) |}.


(** * Properties *)

Section Properties.

Context {World : Type} {QuerySet : Type}.
Variable SAFE_METHODS : list string.

Implicit Types (self : DRYPermissions) (request : Request)
  (view : @View World) (obj : @Instance World)
  (model_class : @ModelClass World) (m : @Method World).

(** ** The monad *)

Lemma py_bind_ret_l {A B} (a : A) (k : A -> Py World B) w :
  py_bind (py_ret a) k w = k a w.
Proof. reflexivity. Qed.

Lemma py_bind_run {A B} (c : Py World A) (k : A -> Py World B) w :
  py_bind c k w
  = match c w with
    | (Ok a, w') => k a w'
    | (Raise e, w') => (Raise e, w')
    end.
Proof. reflexivity. Qed.

Lemma py_bind_ext {A B} (c : Py World A) (k1 k2 : A -> Py World B) w :
  (∀ a w', k1 a w' = k2 a w') → py_bind c k1 w = py_bind c k2 w.
Proof. intros H. unfold py_bind. destruct (c w) as [[a|e] w']; auto. Qed.

Lemma hasattr_true (attrs : gmap string (@Method World)) name m :
  attrs !! name = Some m → hasattr attrs name = true.
Proof. intros H. unfold hasattr. apply bool_decide_eq_true. eauto. Qed.

Lemma hasattr_false (attrs : gmap string (@Method World)) name :
  attrs !! name = None → hasattr attrs name = false.
Proof.
  intros H. unfold hasattr. apply bool_decide_eq_false.
  rewrite H. by intros [? ?].
Qed.

Lemma call_attr_Some (attrs : gmap string (@Method World)) name m request :
  attrs !! name = Some m → call_attr attrs name request = m request.
Proof. intros H. unfold call_attr, getattr. rewrite H. reflexivity. Qed.

(** The general check, case by case. *)
Lemma general_check_read (attrs : gmap string (@Method World)) mc rn wn amn
    request m :
  method request ∈ SAFE_METHODS →
  attrs !! rn = Some m →
  general_check SAFE_METHODS attrs mc rn wn amn request = m request.
Proof.
  intros Hsafe Hm. unfold general_check.
  rewrite (bool_decide_eq_true_2 _ Hsafe), (hasattr_true _ _ _ Hm).
  unfold assert. cbn. by rewrite (call_attr_Some _ _ _ _ Hm).
Qed.

Lemma general_check_read_missing (attrs : gmap string (@Method World)) mc rn wn
    amn request :
  method request ∈ SAFE_METHODS →
  attrs !! rn = None →
  general_check SAFE_METHODS attrs mc rn wn amn request
  = py_raise (AssertionError (_get_error_message mc rn amn)).
Proof.
  intros Hsafe Hm. unfold general_check.
  rewrite (bool_decide_eq_true_2 _ Hsafe), (hasattr_false _ _ Hm).
  reflexivity.
Qed.

Lemma general_check_write (attrs : gmap string (@Method World)) mc rn wn amn
    request m :
  method request ∉ SAFE_METHODS →
  attrs !! wn = Some m →
  general_check SAFE_METHODS attrs mc rn wn amn request = m request.
Proof.
  intros Hsafe Hm. unfold general_check.
  rewrite (bool_decide_eq_false_2 _ Hsafe), (hasattr_true _ _ _ Hm).
  unfold assert. cbn. by rewrite (call_attr_Some _ _ _ _ Hm).
Qed.

Lemma general_check_write_missing (attrs : gmap string (@Method World)) mc rn wn
    amn request :
  method request ∉ SAFE_METHODS →
  attrs !! wn = None →
  general_check SAFE_METHODS attrs mc rn wn amn request
  = py_raise (AssertionError (_get_error_message mc wn amn)).
Proof.
  intros Hsafe Hm. unfold general_check.
  rewrite (bool_decide_eq_false_2 _ Hsafe), (hasattr_false _ _ Hm).
  reflexivity.
Qed.

(** What the two checks do once they are enabled, by the presence of the
    specific method. *)
Lemma has_permission_specific self request view model_class a m :
  global_permissions self = true →
  Meta_model view = Some model_class →
  action view = Some a →
  model_attrs model_class !! ("has_" +:+ _get_action self a +:+ "_permission")
    = Some m →
  has_permission SAFE_METHODS self request view = m request.
Proof.
  intros Hg Hm Ha Hs. unfold has_permission.
  rewrite Hg, Hm, Ha. cbn.
  by rewrite (hasattr_true _ _ _ Hs), (call_attr_Some _ _ _ _ Hs).
Qed.

Lemma has_permission_general self request view model_class a :
  global_permissions self = true →
  Meta_model view = Some model_class →
  action view = Some a →
  model_attrs model_class !! ("has_" +:+ _get_action self a +:+ "_permission")
    = None →
  has_permission SAFE_METHODS self request view
  = general_check SAFE_METHODS (model_attrs model_class) (Some model_class)
      "has_read_permission" "has_write_permission"
      (Some ("has_" +:+ _get_action self a +:+ "_permission")) request.
Proof.
  intros Hg Hm Ha Hs. unfold has_permission.
  rewrite Hg, Hm, Ha. cbn. by rewrite (hasattr_false _ _ Hs).
Qed.

Lemma has_object_permission_specific self request view obj a m :
  object_permissions self = true →
  action view = Some a →
  obj_attrs obj !! ("has_object_" +:+ _get_action self a +:+ "_permission")
    = Some m →
  has_object_permission SAFE_METHODS self request view obj = m request.
Proof.
  intros Hg Ha Hs. unfold has_object_permission.
  rewrite Hg, Ha. cbn.
  by rewrite (hasattr_true _ _ _ Hs), (call_attr_Some _ _ _ _ Hs).
Qed.

Lemma has_object_permission_general self request view obj a :
  object_permissions self = true →
  action view = Some a →
  obj_attrs obj !! ("has_object_" +:+ _get_action self a +:+ "_permission")
    = None →
  has_object_permission SAFE_METHODS self request view obj
  = general_check SAFE_METHODS (obj_attrs obj) (Meta_model view)
      "has_object_read_permission" "has_object_write_permission"
      (Some ("has_object_" +:+ _get_action self a +:+ "_permission")) request.
Proof.
  intros Hg Ha Hs. unfold has_object_permission.
  rewrite Hg, Ha. cbn. by rewrite (hasattr_false _ _ Hs).
Qed.

(** C1, as amended: when the model defines the specific method for the
    action the gate resolves (the view's action, with [partial_update]
    read as [update] when [partial_update_is_update] is set), the global
    check is exactly that method applied to the request: same answer,
    same exception, same effect on the world, whatever else the model
    defines, [has_read_permission] and [has_write_permission] included.
    The object check is the same with [has_object_..._permission] on the
    instance. *)
Theorem specific_method_is_authoritative self request view a :
  action view = Some a →
  (∀ model_class m,
     global_permissions self = true →
     Meta_model view = Some model_class →
     model_attrs model_class
       !! ("has_" +:+ _get_action self a +:+ "_permission") = Some m →
     has_permission SAFE_METHODS self request view = m request) ∧
  (∀ obj m,
     object_permissions self = true →
     obj_attrs obj
       !! ("has_object_" +:+ _get_action self a +:+ "_permission") = Some m →
     has_object_permission SAFE_METHODS self request view obj = m request).
Proof.
  intros Ha. split.
  - intros. by eapply has_permission_specific.
  - intros. by eapply has_object_permission_specific.
Qed.

(** C3, as amended: when the model lacks the specific method for the
    action the gate resolves, a safe HTTP method is answered by
    [has_read_permission] and an unsafe one by [has_write_permission];
    when the general method needed is absent the check raises an
    assertion error.  The object check does the same with
    [has_object_read_permission] and [has_object_write_permission] on the
    instance. *)
Theorem general_method_fallback self request view a :
  action view = Some a →
  (∀ model_class,
     global_permissions self = true →
     Meta_model view = Some model_class →
     model_attrs model_class
       !! ("has_" +:+ _get_action self a +:+ "_permission") = None →
     let attrs := model_attrs model_class in
     let msg name :=
       _get_error_message (Some model_class) name
         (Some ("has_" +:+ _get_action self a +:+ "_permission")) in
     (method request ∈ SAFE_METHODS →
        (∀ m, attrs !! "has_read_permission" = Some m →
              has_permission SAFE_METHODS self request view = m request) ∧
        (attrs !! "has_read_permission" = None →
              has_permission SAFE_METHODS self request view
              = py_raise (AssertionError (msg "has_read_permission")))) ∧
     (method request ∉ SAFE_METHODS →
        (∀ m, attrs !! "has_write_permission" = Some m →
              has_permission SAFE_METHODS self request view = m request) ∧
        (attrs !! "has_write_permission" = None →
              has_permission SAFE_METHODS self request view
              = py_raise (AssertionError (msg "has_write_permission"))))) ∧
  (∀ obj,
     object_permissions self = true →
     obj_attrs obj
       !! ("has_object_" +:+ _get_action self a +:+ "_permission") = None →
     let attrs := obj_attrs obj in
     let msg name :=
       _get_error_message (Meta_model view) name
         (Some ("has_object_" +:+ _get_action self a +:+ "_permission")) in
     (method request ∈ SAFE_METHODS →
        (∀ m, attrs !! "has_object_read_permission" = Some m →
              has_object_permission SAFE_METHODS self request view obj = m request) ∧
        (attrs !! "has_object_read_permission" = None →
              has_object_permission SAFE_METHODS self request view obj
              = py_raise (AssertionError (msg "has_object_read_permission")))) ∧
     (method request ∉ SAFE_METHODS →
        (∀ m, attrs !! "has_object_write_permission" = Some m →
              has_object_permission SAFE_METHODS self request view obj = m request) ∧
        (attrs !! "has_object_write_permission" = None →
              has_object_permission SAFE_METHODS self request view obj
              = py_raise (AssertionError (msg "has_object_write_permission"))))).
Proof.
  intros Ha. split.
  - intros model_class Hg Hm Hs attrs msg.
    rewrite (has_permission_general _ _ _ _ _ Hg Hm Ha Hs).
    repeat split; intros.
    + by apply general_check_read.
    + by apply general_check_read_missing.
    + by apply general_check_write.
    + by apply general_check_write_missing.
  - intros obj Hg Hs attrs msg.
    rewrite (has_object_permission_general _ _ _ _ _ Hg Ha Hs).
    repeat split; intros.
    + by apply general_check_read.
    + by apply general_check_read_missing.
    + by apply general_check_write.
    + by apply general_check_write_missing.
Qed.

(** C10: a view without an [action] attribute never reaches a specific
    method.  Both checks are then the general method alone, chosen by the
    safety of the HTTP method, whatever specific methods the model or the
    instance define; the error for a missing general method names no
    specific method. *)
Theorem view_without_action self request view :
  action view = None →
  (∀ model_class,
     global_permissions self = true →
     Meta_model view = Some model_class →
     has_permission SAFE_METHODS self request view
     = spec_general_only (bool_decide (method request ∈ SAFE_METHODS))
         (model_attrs model_class)
         "has_read_permission" "has_write_permission"
         (model_repr model_class) request) ∧
  (∀ obj,
     object_permissions self = true →
     has_object_permission SAFE_METHODS self request view obj
     = spec_general_only (bool_decide (method request ∈ SAFE_METHODS))
         (obj_attrs obj)
         "has_object_read_permission" "has_object_write_permission"
         (format_model (Meta_model view)) request).
Proof.
  intros Ha. split.
  - intros model_class Hg Hm. unfold has_permission, spec_general_only.
    rewrite Hg, Hm, Ha. cbn.
    destruct (decide (method request ∈ SAFE_METHODS)) as [Hs|Hs].
    + rewrite (bool_decide_eq_true_2 _ Hs).
      destruct (model_attrs model_class !! "has_read_permission") eqn:E.
      * by apply general_check_read.
      * by rewrite general_check_read_missing.
    + rewrite (bool_decide_eq_false_2 _ Hs).
      destruct (model_attrs model_class !! "has_write_permission") eqn:E.
      * by apply general_check_write.
      * by rewrite general_check_write_missing.
  - intros obj Hg. unfold has_object_permission, spec_general_only.
    rewrite Hg, Ha. cbn.
    destruct (decide (method request ∈ SAFE_METHODS)) as [Hs|Hs].
    + rewrite (bool_decide_eq_true_2 _ Hs).
      destruct (obj_attrs obj !! "has_object_read_permission") eqn:E.
      * by apply general_check_read.
      * by rewrite general_check_read_missing.
    + rewrite (bool_decide_eq_false_2 _ Hs).
      destruct (obj_attrs obj !! "has_object_write_permission") eqn:E.
      * by apply general_check_write.
      * by rewrite general_check_write_missing.
Qed.

(** ** Renaming of [partial_update] *)

Lemma _get_action_other self a :
  a ≠ "partial_update" → _get_action self a = a.
Proof.
  intros Hne. unfold _get_action.
  destruct (String.eqb_spec a "partial_update") as [->|_]; [done|].
  by rewrite andb_false_r.
Qed.

Lemma _get_action_partial_update self :
  _get_action self "partial_update"
  = if partial_update_is_update self then "update" else "partial_update".
Proof. unfold _get_action. by destruct (partial_update_is_update self). Qed.

(** Two attribute tables that agree on the names a check reads give the
    same general check. *)
Lemma general_check_agree (attrs attrs' : gmap string (@Method World)) mc rn wn
    amn request :
  attrs !! rn = attrs' !! rn →
  attrs !! wn = attrs' !! wn →
  general_check SAFE_METHODS attrs mc rn wn amn request
  = general_check SAFE_METHODS attrs' mc rn wn amn request.
Proof.
  intros Hr Hw. unfold general_check, hasattr, call_attr, getattr.
  by rewrite Hr, Hw.
Qed.

(** C6: with [partial_update_is_update] set, the action [partial_update]
    goes through both checks exactly as [update] does: the method looked
    up is [has_update_permission] ([has_object_update_permission] on the
    instance), which answers when it exists, and nothing defined under the
    name of [partial_update] changes the outcome.  With the flag unset,
    [partial_update] is looked up under its own name and nothing the model
    or the instance defines for [update] changes the outcome; and no other
    action is ever renamed. *)
Theorem partial_update_resolution self request view :
  (partial_update_is_update self = true →
     has_permission SAFE_METHODS self request (set_action "partial_update" view)
     = has_permission SAFE_METHODS self request (set_action "update" view)
     ∧ (∀ obj,
         has_object_permission SAFE_METHODS self request
           (set_action "partial_update" view) obj
         = has_object_permission SAFE_METHODS self request
             (set_action "update" view) obj)
     ∧ (∀ model_class m,
          global_permissions self = true →
          Meta_model view = Some model_class →
          model_attrs model_class !! "has_update_permission" = Some m →
          has_permission SAFE_METHODS self request
            (set_action "partial_update" view) = m request)
     ∧ (∀ obj m,
          object_permissions self = true →
          obj_attrs obj !! "has_object_update_permission" = Some m →
          has_object_permission SAFE_METHODS self request
            (set_action "partial_update" view) obj = m request)
     ∧ (∀ view' model_class model_class',
          Meta_model view = Some model_class →
          Meta_model view' = Some model_class' →
          model_repr model_class = model_repr model_class' →
          (∀ name, name ≠ "has_partial_update_permission" →
             model_attrs model_class !! name
             = model_attrs model_class' !! name) →
          has_permission SAFE_METHODS self request
            (set_action "partial_update" view)
          = has_permission SAFE_METHODS self request
              (set_action "partial_update" view'))
     ∧ (∀ obj obj',
          (∀ name, name ≠ "has_object_partial_update_permission" →
             obj_attrs obj !! name = obj_attrs obj' !! name) →
          has_object_permission SAFE_METHODS self request
            (set_action "partial_update" view) obj
          = has_object_permission SAFE_METHODS self request
              (set_action "partial_update" view) obj')) ∧
  (partial_update_is_update self = false →
     (∀ model_class m,
        global_permissions self = true →
        Meta_model view = Some model_class →
        model_attrs model_class !! "has_partial_update_permission" = Some m →
        has_permission SAFE_METHODS self request
          (set_action "partial_update" view) = m request) ∧
     (∀ obj m,
        object_permissions self = true →
        obj_attrs obj !! "has_object_partial_update_permission" = Some m →
        has_object_permission SAFE_METHODS self request
          (set_action "partial_update" view) obj = m request) ∧
     (∀ view' model_class model_class',
        Meta_model view = Some model_class →
        Meta_model view' = Some model_class' →
        model_repr model_class = model_repr model_class' →
        (∀ name, name ≠ "has_update_permission" →
           model_attrs model_class !! name = model_attrs model_class' !! name) →
        has_permission SAFE_METHODS self request
          (set_action "partial_update" view)
        = has_permission SAFE_METHODS self request
            (set_action "partial_update" view')) ∧
     (∀ obj obj',
        (∀ name, name ≠ "has_object_update_permission" →
           obj_attrs obj !! name = obj_attrs obj' !! name) →
        has_object_permission SAFE_METHODS self request
          (set_action "partial_update" view) obj
        = has_object_permission SAFE_METHODS self request
            (set_action "partial_update" view) obj')) ∧
  (∀ a, a ≠ "partial_update" → _get_action self a = a).
Proof.
  split; [|split].
  - intros Hp. split; [|split; [intros obj|]];
      [ unfold has_permission, has_object_permission; cbn;
        rewrite _get_action_partial_update, Hp;
        by rewrite (_get_action_other self "update").. |].
    repeat split.
    + intros model_class m Hg Hm Hs.
      apply (has_permission_specific _ _ _ model_class "partial_update");
        [done..|]. by rewrite _get_action_partial_update, Hp.
    + intros obj m Hg Hs.
      apply (has_object_permission_specific _ _ _ _ "partial_update");
        [done..|]. by rewrite _get_action_partial_update, Hp.
    + intros view' mc mc' Hm Hm' Hrepr Hagree.
      unfold has_permission. cbn. rewrite Hm, Hm'.
      rewrite _get_action_partial_update, Hp.
      destruct (global_permissions self); cbn; [|done].
      unfold hasattr, call_attr, getattr.
      change ("has_" +:+ "update" +:+ "_permission")
        with "has_update_permission".
      rewrite <- (Hagree "has_update_permission") by done.
      destruct (model_attrs mc !! "has_update_permission"); cbn; [done|].
      rewrite (general_check_agree (model_attrs mc) (model_attrs mc'))
        by (apply Hagree; done).
      unfold general_check, _get_error_message, format_model.
      by rewrite Hrepr.
    + intros obj obj' Hagree.
      unfold has_object_permission. cbn.
      rewrite _get_action_partial_update, Hp.
      destruct (object_permissions self); cbn; [|done].
      unfold hasattr, call_attr, getattr.
      change ("has_object_" +:+ "update" +:+ "_permission")
        with "has_object_update_permission".
      rewrite <- (Hagree "has_object_update_permission") by done.
      destruct (obj_attrs obj !! "has_object_update_permission");
        cbn; [done|].
      by rewrite (general_check_agree (obj_attrs obj) (obj_attrs obj'))
        by (apply Hagree; done).
  - intros Hp. repeat split.
    + intros model_class m Hg Hm Hs.
      apply (has_permission_specific _ _ _ model_class "partial_update");
        [done..|]. by rewrite _get_action_partial_update, Hp.
    + intros obj m Hg Hs.
      apply (has_object_permission_specific _ _ _ _ "partial_update");
        [done..|]. by rewrite _get_action_partial_update, Hp.
    + intros view' mc mc' Hm Hm' Hrepr Hagree.
      unfold has_permission. cbn. rewrite Hm, Hm'.
      rewrite _get_action_partial_update, Hp.
      destruct (global_permissions self); cbn; [|done].
      unfold hasattr, call_attr, getattr.
      change ("has_" +:+ "partial_update" +:+ "_permission")
        with "has_partial_update_permission".
      rewrite <- (Hagree "has_partial_update_permission") by done.
      destruct (model_attrs mc !! "has_partial_update_permission"); cbn; [done|].
      rewrite (general_check_agree (model_attrs mc) (model_attrs mc'))
        by (apply Hagree; done).
      unfold general_check, _get_error_message, format_model.
      by rewrite Hrepr.
    + intros obj obj' Hagree.
      unfold has_object_permission. cbn.
      rewrite _get_action_partial_update, Hp.
      destruct (object_permissions self); cbn; [|done].
      unfold hasattr, call_attr, getattr.
      change ("has_object_" +:+ "partial_update" +:+ "_permission")
        with "has_object_partial_update_permission".
      rewrite <- (Hagree "has_object_partial_update_permission") by done.
      destruct (obj_attrs obj !! "has_object_partial_update_permission");
        cbn; [done|].
      by rewrite (general_check_agree (obj_attrs obj) (obj_attrs obj'))
        by (apply Hagree; done).
  - apply _get_action_other.
Qed.

(** ** The two checks together *)

(** C2: the overall decision of a view guarded by one gate is the global
    result and then the object result when both checks are enabled; with
    global checks disabled [has_permission] answers true at once and the
    overall decision is the object result; with object checks disabled
    [has_object_permission] answers true at once and the overall decision
    is the global result. *)
Theorem overall_permission self request view obj w :
  permission_classes view = [self] →
  (global_permissions self = true → object_permissions self = true →
     dummy_check_permission SAFE_METHODS view request obj w
     = and_then (has_permission SAFE_METHODS self request view)
         (has_object_permission SAFE_METHODS self request view obj) w) ∧
  (global_permissions self = false →
     has_permission SAFE_METHODS self request view = py_ret true ∧
     dummy_check_permission SAFE_METHODS view request obj w
     = has_object_permission SAFE_METHODS self request view obj w) ∧
  (object_permissions self = false →
     has_object_permission SAFE_METHODS self request view obj = py_ret true ∧
     dummy_check_permission SAFE_METHODS view request obj w
     = has_permission SAFE_METHODS self request view w).
Proof.
  intros Hpc.
  assert (Hall : dummy_check_permission SAFE_METHODS view request obj w
     = and_then (has_permission SAFE_METHODS self request view)
         (has_object_permission SAFE_METHODS self request view obj) w).
  { unfold dummy_check_permission, and_then. rewrite Hpc. cbn.
    unfold py_bind.
    destruct (has_permission SAFE_METHODS self request view w) as [[[]|e] w1];
      cbn; [|done..].
    by destruct (has_object_permission SAFE_METHODS self request view obj w1)
      as [[[]|e] w2]. }
  split; [|split].
  - intros _ _. exact Hall.
  - intros Hg.
    assert (Hp : has_permission SAFE_METHODS self request view = py_ret true).
    { unfold has_permission. by rewrite Hg. }
    split; [exact Hp|]. by rewrite Hall, Hp.
  - intros Ho.
    assert (Hp : has_object_permission SAFE_METHODS self request view obj
                 = py_ret true).
    { unfold has_object_permission. by rewrite Ho. }
    split; [exact Hp|]. rewrite Hall, Hp. unfold and_then, py_bind.
    by destruct (has_permission SAFE_METHODS self request view w) as [[[]|e] w1].
Qed.

(** ** The filter backend *)

(** C5: a request for a single object (the view's lookup key is among its
    routing keyword arguments) gets its queryset back unchanged: no filter
    method runs, whatever [action_routing] is and whatever the subclass
    defines. *)
Theorem single_object_request_unfiltered
    (self : @DRYPermissionFiltersBase World QuerySet) request
    (queryset : QuerySet) view :
  is_Some (kwargs view !! lookup_field view) →
  filter_queryset self request queryset view = py_ret queryset.
Proof.
  intros H. unfold filter_queryset.
  by rewrite (bool_decide_eq_true_2 _ H).
Qed.


Lemma filter_queryset_list (self : @DRYPermissionFiltersBase World QuerySet)
    request (queryset : QuerySet) view :
  kwargs view !! lookup_field view = None →
  action_routing self = false →
  filter_queryset self request queryset view
  = (fm <- getattr_filter self "filter_list_queryset" ;;
     fm request queryset view).
Proof.
  intros Hk Hr. unfold filter_queryset. rewrite Hk, Hr.
  rewrite bool_decide_eq_false_2; [done|]. by intros [? ?].
Qed.

Lemma filter_queryset_routed (self : @DRYPermissionFiltersBase World QuerySet)
    request (queryset : QuerySet) view a :
  kwargs view !! lookup_field view = None →
  action_routing self = true →
  action view = Some a →
  filter_queryset self request queryset view
  = (fm <- getattr_filter self ("filter_" +:+ a +:+ "_queryset") ;;
     fm request queryset view).
Proof.
  intros Hk Hr Ha. unfold filter_queryset. rewrite Hk, Hr, Ha.
  rewrite bool_decide_eq_false_2; [done|]. by intros [? ?].
Qed.


(** ** The field's constructor *)


(** ** The staff decorator *)

Lemma append_cons c (a b : string) : String c a +:+ b = String c (a +:+ b).
Proof. reflexivity. Qed.

Lemma append_nil (b : string) : "" +:+ b = b.
Proof. reflexivity. Qed.

Lemma prefix_app (n h : string) :
  String.prefix n h = true ↔ ∃ b, h = n +:+ b.
Proof.
  revert n. induction h as [|c' h IH]; intros [|c n]; cbn.
  - split; [by exists "" | done].
  - split; [done | intros [b Hb]; by rewrite append_cons in Hb].
  - split; [by exists (String c' h) | done].
  - destruct (Ascii.ascii_dec c c') as [->|Hne].
    + rewrite IH. split; intros [b Hb]; exists b.
      * by rewrite append_cons, Hb.
      * rewrite append_cons in Hb. congruence.
    + split; [done | intros [b Hb]; rewrite append_cons in Hb; congruence].
Qed.

(** [contains] is Python's substring test. *)
Lemma contains_spec (n h : string) :
  contains n h = true ↔ ∃ a b, h = a +:+ n +:+ b.
Proof.
  induction h as [|c h IH]; cbn [contains].
  - rewrite orb_false_r, prefix_app. split.
    + intros [b Hb]. by exists "", b.
    + intros [a [b Hb]]. destruct a; [by exists b|].
      by rewrite append_cons in Hb.
  - rewrite orb_true_iff, prefix_app, IH. split.
    + intros [[b Hb]|[a [b Hb]]].
      * by exists "", b.
      * exists (String c a), b. by rewrite append_cons, Hb.
    + intros [a [b Hb]]. destruct a as [|c' a].
      * left. by exists b.
      * right. exists a, b. rewrite append_cons in Hb. congruence.
Qed.

(** C8, as amended: the wrapper takes the request from the second
    positional argument when the function's name contains [has_object] and
    from the first one otherwise; when that request's user is staff or
    superuser it answers true and the wrapped function does not run, and
    otherwise it is the wrapped function on the same arguments.  The
    wrapper keeps the function's name. *)
Theorem staff_or_superuser_bypass (func : @Function World) args kwargs r u :
  user r = Some u →
  __name__ (allow_staff_or_superuser func) = __name__ func ∧
  (contains "has_object" (__name__ func) = true →
   args !! 1 = Some (VRequest r) →
   call (allow_staff_or_superuser func) args kwargs
   = if is_staff u || is_superuser u then py_ret true
     else call func args kwargs) ∧
  (contains "has_object" (__name__ func) = false →
   args !! 0 = Some (VRequest r) →
   call (allow_staff_or_superuser func) args kwargs
   = if is_staff u || is_superuser u then py_ret true
     else call func args kwargs).
Proof.
  intros Hu. destruct r as [meth usr]. cbn in Hu. subst usr.
  split; [reflexivity|].
  split; intros Hn Hr; cbn; rewrite Hn.
  - destruct args as [|a0 [|a1 args]]; [done..|].
    cbn in Hr. injection Hr as ->.
    by destruct (is_staff u || is_superuser u) eqn:E;
      unfold index, get_user, staff_or_superuser, py_bind; cbn; rewrite E.
  - destruct args as [|a0 args]; [done|].
    cbn in Hr. injection Hr as ->.
    by destruct (is_staff u || is_superuser u) eqn:E;
      unfold index, get_user, staff_or_superuser, py_bind; cbn; rewrite E.
Qed.

(** ** The field: what [bind] records *)











(** ** The field: what [to_representation] reports *)

Section Bound.

(** A field bound to a serializer with a model and a request in its
    context, in the combined mode. *)
Variables (self' : @DRYPermissionsField World) (p : @Serializer World)
  (model : @ModelClass World) (value : @Instance World) (request : Request).
Hypothesis Hglobal_only : global_only self' = false.
Hypothesis Hobject_only : object_only self' = false.
Hypothesis Hparent : parent self' = Some p.
Hypothesis Hmodel : serializer_model p = Some model.
Hypothesis Hrequest : context p !! "request" = Some request.






End Bound.


End Properties.

(** * The properties at work on the concrete models *)

Lemma GET_is_safe : "GET" ∈ DRF_SAFE_METHODS.
Proof. compute_done. Defined.

Lemma PUT_is_unsafe : "PUT" ∉ DRF_SAFE_METHODS.
Proof. compute_done. Defined.

Lemma PATCH_is_unsafe : "PATCH" ∉ DRF_SAFE_METHODS.
Proof. compute_done. Defined.

(** C1 at work: [retrieve] on [TestModel] is answered by
    [has_retrieve_permission], although [has_read_permission] denies. *)
Lemma specific_method_is_authoritative_witness :
  has_permission DRF_SAFE_METHODS DRYPermissions_default request_retrieve
    (test_view TestModel (Some "retrieve"))
  = logged "has_retrieve_permission" true request_retrieve
  ∧ has_object_permission DRF_SAFE_METHODS DRYPermissions_default
      request_retrieve (test_view TestModel (Some "retrieve")) test_instance
    = logged "has_object_retrieve_permission" true request_retrieve.
Proof.
  destruct (specific_method_is_authoritative DRF_SAFE_METHODS
              DRYPermissions_default request_retrieve
              (test_view TestModel (Some "retrieve")) "retrieve" eq_refl)
    as [Hglobal Hobject].
  split.
  - apply (Hglobal TestModel); reflexivity.
  - apply Hobject; reflexivity.
Defined.

(** C1 as the spec words it fails: the model defines
    [has_partial_update_permission], the view's action is
    [partial_update], and the default gate answers with
    [has_write_permission] instead. *)
Lemma specific_method_counterexample :
  action (test_view PartialModel (Some "partial_update"))
    = Some "partial_update"
  ∧ global_permissions DRYPermissions_default = true
  ∧ model_attrs PartialModel !! "has_partial_update_permission"
    = Some (logged "has_partial_update_permission" false)
  ∧ has_permission DRF_SAFE_METHODS DRYPermissions_default
      request_partial_update (test_view PartialModel (Some "partial_update")) []
    = (Ok true, ["has_write_permission"])
  ∧ has_permission DRF_SAFE_METHODS DRYPermissions_default
      request_partial_update (test_view PartialModel (Some "partial_update")) []
    ≠ logged "has_partial_update_permission" false request_partial_update [].
Proof. repeat split; try reflexivity. vm_compute. discriminate. Qed.

(** C3 at work: [list] has no specific method on [TestModel], so a GET
    is answered by [has_read_permission]; on a model without any method a
    PUT raises the assertion error; the instance side likewise. *)
Lemma general_method_fallback_witness :
  has_permission DRF_SAFE_METHODS DRYPermissions_default request_retrieve
    (test_view TestModel (Some "list"))
  = logged "has_read_permission" false request_retrieve
  ∧ has_permission DRF_SAFE_METHODS DRYPermissions_default request_update
      (test_view BareModel (Some "update"))
    = py_raise (AssertionError
        "'<class 'tests.BareModel'>' does not have 'has_write_permission' or 'has_update_permission' defined.")
  ∧ has_object_permission DRF_SAFE_METHODS DRYPermissions_default
      request_update (test_view TestModel (Some "update")) test_instance
    = logged "has_object_write_permission" false request_update.
Proof.
  split; [|split].
  - destruct (general_method_fallback DRF_SAFE_METHODS DRYPermissions_default
                request_retrieve (test_view TestModel (Some "list")) "list"
                eq_refl) as [Hglobal _].
    destruct (Hglobal TestModel eq_refl eq_refl eq_refl) as [Hsafe _].
    destruct (Hsafe GET_is_safe) as [Hread _].
    apply Hread. reflexivity.
  - destruct (general_method_fallback DRF_SAFE_METHODS DRYPermissions_default
                request_update (test_view BareModel (Some "update")) "update"
                eq_refl) as [Hglobal _].
    destruct (Hglobal BareModel eq_refl eq_refl eq_refl) as [_ Hunsafe].
    destruct (Hunsafe PUT_is_unsafe) as [_ Hmissing].
    apply Hmissing. reflexivity.
  - destruct (general_method_fallback DRF_SAFE_METHODS DRYPermissions_default
                request_update (test_view TestModel (Some "update")) "update"
                eq_refl) as [_ Hobject].
    destruct (Hobject test_instance eq_refl eq_refl) as [_ Hunsafe].
    destruct (Hunsafe PUT_is_unsafe) as [Hwrite _].
    apply Hwrite. reflexivity.
Defined.

(** C3 as the spec words it fails: the model has no
    [has_partial_update_permission], the request is a PATCH, and the
    default gate answers with [has_update_permission], not with
    [has_write_permission]. *)
Lemma general_method_counterexample :
  action (test_view UpdateModel (Some "partial_update"))
    = Some "partial_update"
  ∧ global_permissions DRYPermissions_default = true
  ∧ model_attrs UpdateModel !! "has_partial_update_permission" = None
  ∧ (method request_partial_update ∉ DRF_SAFE_METHODS)
  ∧ model_attrs UpdateModel !! "has_write_permission"
    = Some (logged "has_write_permission" true)
  ∧ has_permission DRF_SAFE_METHODS DRYPermissions_default
      request_partial_update (test_view UpdateModel (Some "partial_update")) []
    = (Ok false, ["has_update_permission"])
  ∧ has_permission DRF_SAFE_METHODS DRYPermissions_default
      request_partial_update (test_view UpdateModel (Some "partial_update")) []
    ≠ logged "has_write_permission" true request_partial_update [].
Proof.
  repeat split; try reflexivity.
  - exact PATCH_is_unsafe.
  - vm_compute. discriminate.
Qed.

(** C10 at work: without an action the specific [retrieve] method of
    [TestModel] is not reached. *)
Lemma view_without_action_witness :
  has_permission DRF_SAFE_METHODS DRYPermissions_default request_retrieve
    (test_view TestModel None) []
  = (Ok false, ["has_read_permission"])
  ∧ has_object_permission DRF_SAFE_METHODS DRYPermissions_default
      request_retrieve (test_view TestModel None) test_instance []
    = (Ok true, ["has_object_read_permission"]).
Proof.
  destruct (view_without_action DRF_SAFE_METHODS DRYPermissions_default
              request_retrieve (test_view TestModel None) eq_refl)
    as [Hglobal Hobject].
  split.
  - rewrite (Hglobal TestModel eq_refl eq_refl). reflexivity.
  - rewrite (Hobject test_instance eq_refl). reflexivity.
Defined.

(** C6 at work, with the flag set and with it unset: under the default
    gate a PATCH on [UpdateModel] is answered by [has_update_permission],
    and [has_object_update_permission] answers on the instance. *)
Lemma partial_update_resolution_witness :
  has_permission DRF_SAFE_METHODS DRYPermissions_default request_partial_update
    (set_action "partial_update" (test_view UpdateModel None))
  = has_permission DRF_SAFE_METHODS DRYPermissions_default
      request_partial_update (set_action "update" (test_view UpdateModel None))
  ∧ has_permission DRF_SAFE_METHODS DRYPermissions_default
      request_partial_update
      (set_action "partial_update" (test_view UpdateModel None))
    = logged "has_update_permission" false request_partial_update
  ∧ has_object_permission DRF_SAFE_METHODS DRYPermissions_default
      request_partial_update
      (set_action "partial_update" (test_view UpdateModel None))
      update_instance
    = logged "has_object_update_permission" true request_partial_update
  ∧ has_permission DRF_SAFE_METHODS DRYPermissions_separate
      request_partial_update
      (set_action "partial_update" (test_view PartialModel None))
    = logged "has_partial_update_permission" false request_partial_update
  ∧ has_object_permission DRF_SAFE_METHODS DRYPermissions_separate
      request_partial_update
      (set_action "partial_update" (test_view PartialModel None))
      partial_instance
    = logged "has_object_partial_update_permission" true
        request_partial_update
  ∧ _get_action DRYPermissions_default "retrieve" = "retrieve".
Proof.
  destruct (partial_update_resolution DRF_SAFE_METHODS DRYPermissions_default
              request_partial_update (test_view UpdateModel None))
    as (Hset & _ & Hother).
  destruct (Hset eq_refl) as (Hsame & _ & Hglobal_update & Hobject_update & _).
  destruct (partial_update_resolution DRF_SAFE_METHODS
              DRYPermissions_separate request_partial_update
              (test_view PartialModel None)) as (_ & Hunset & _).
  destruct (Hunset eq_refl) as (Hglobal & Hobject & _).
  split; [exact Hsame|].
  split; [apply (Hglobal_update UpdateModel); reflexivity|].
  split; [apply Hobject_update; reflexivity|].
  split; [apply (Hglobal PartialModel); reflexivity|].
  split; [apply Hobject; reflexivity|].
  apply Hother. discriminate.
Defined.

(** C2 at work: the three presets on the same model, instance and
    request. *)
Lemma overall_permission_witness :
  dummy_check_permission DRF_SAFE_METHODS
    (guarded_view DRYPermissions_default TestModel (Some "retrieve"))
    request_retrieve test_instance []
  = (Ok true, ["has_retrieve_permission"; "has_object_retrieve_permission"])
  ∧ dummy_check_permission DRF_SAFE_METHODS
      (guarded_view DRYObjectPermissions TestModel (Some "list"))
      request_retrieve test_instance []
    = (Ok true, ["has_object_read_permission"])
  ∧ dummy_check_permission DRF_SAFE_METHODS
      (guarded_view DRYGlobalPermissions TestModel (Some "list"))
      request_retrieve test_instance []
    = (Ok false, ["has_read_permission"]).
Proof.
  split; [|split].
  - destruct (overall_permission DRF_SAFE_METHODS DRYPermissions_default
                request_retrieve
                (guarded_view DRYPermissions_default TestModel (Some "retrieve"))
                test_instance [] eq_refl) as (Hboth & _).
    rewrite (Hboth eq_refl eq_refl). reflexivity.
  - destruct (overall_permission DRF_SAFE_METHODS DRYObjectPermissions
                request_retrieve
                (guarded_view DRYObjectPermissions TestModel (Some "list"))
                test_instance [] eq_refl) as (_ & Hno_global & _).
    destruct (Hno_global eq_refl) as [_ ->]. reflexivity.
  - destruct (overall_permission DRF_SAFE_METHODS DRYGlobalPermissions
                request_retrieve
                (guarded_view DRYGlobalPermissions TestModel (Some "list"))
                test_instance [] eq_refl) as (_ & _ & Hno_object).
    destruct (Hno_object eq_refl) as [_ ->]. reflexivity.
Defined.

(** C5 at work: [/dummy/1] is not filtered, by either backend. *)
Lemma single_object_request_unfiltered_witness :
  filter_queryset TestFilterBackend request_retrieve [1; 2; 3; 4]
    (detail_view TestModel (Some "retrieve")) []
  = (Ok [1; 2; 3; 4], [])
  ∧ filter_queryset RoutedFilterBackend request_retrieve [1; 2; 3; 4]
      (detail_view TestModel (Some "retrieve")) []
    = (Ok [1; 2; 3; 4], []).
Proof.
  split.
  - rewrite (single_object_request_unfiltered TestFilterBackend
               request_retrieve [1; 2; 3; 4]
               (detail_view TestModel (Some "retrieve")));
      [reflexivity | by eexists].
  - rewrite (single_object_request_unfiltered RoutedFilterBackend
               request_retrieve [1; 2; 3; 4]
               (detail_view TestModel (Some "retrieve")));
      [reflexivity | by eexists].
Defined.



(** C8 at work: an object permission called with [(self, request)] by a
    staff user, a global one called with [(request)] by a plain user. *)
Lemma staff_or_superuser_bypass_witness :
  call (allow_staff_or_superuser has_object_publish_permission)
    [VInstance test_instance; VRequest request_staff] ∅ []
  = (Ok true, [])
  ∧ call (allow_staff_or_superuser has_publish_permission)
      [VRequest request_retrieve] ∅ []
    = (Ok false, ["has_publish_permission"]).
Proof.
  split.
  - destruct (staff_or_superuser_bypass has_object_publish_permission
                [VInstance test_instance; VRequest request_staff] ∅
                request_staff staff_user eq_refl) as (_ & Hobject & _).
    rewrite (Hobject eq_refl eq_refl). reflexivity.
  - destruct (staff_or_superuser_bypass has_publish_permission
                [VRequest request_retrieve] ∅
                request_retrieve plain_user eq_refl) as (_ & _ & Hglobal).
    rewrite (Hglobal eq_refl eq_refl). reflexivity.
Defined.

(** C8 as the spec words it fails: the name contains [object] but not
    [has_object]; the second argument is a staff user's request, and the
    wrapper still reads the first one and runs the function. *)
Lemma staff_bypass_counterexample :
  contains "object" (__name__ has_list_objects_permission) = true
  ∧ [VRequest request_retrieve; VRequest request_staff] !! 1
    = Some (VRequest (World := list string) request_staff)
  ∧ user request_staff = Some staff_user
  ∧ is_staff staff_user = true
  ∧ call (allow_staff_or_superuser has_list_objects_permission)
      [VRequest request_retrieve; VRequest request_staff] ∅ []
    = (Ok false, ["has_list_objects_permission"])
  ∧ call (allow_staff_or_superuser has_list_objects_permission)
      [VRequest request_retrieve; VRequest request_staff] ∅ []
    ≠ py_ret true [].
Proof. repeat split; try reflexivity. vm_compute. discriminate. Qed.


(** * More of the code: the other decorators *)

Section Decorators.

Context {World : Type}.

Implicit Types (func : @Function World) (args : list (@PyVal World))
  (kwargs : gmap string (@PyVal World)) (r : Request).

Lemma allow_staff_or_superuser_run func args kwargs r u :
  args !! (if contains "has_object" (__name__ func) then 1 else 0)
    = Some (VRequest r) →
  user r = Some u →
  call (allow_staff_or_superuser func) args kwargs
  = (if is_staff u || is_superuser u then py_ret true
     else call func args kwargs).
Proof.
  intros H Hu. destruct r as [meth usr]. cbn in Hu. subst usr.
  cbn [call allow_staff_or_superuser].
  destruct (contains "has_object" (__name__ func));
    [destruct args as [|a0 [|a1 args]] | destruct args as [|a0 args]];
    try discriminate H; cbn in H; injection H as ->;
    unfold index, get_user, staff_or_superuser, py_bind; cbn;
    by destruct (is_staff u || is_superuser u).
Qed.

Lemma authenticated_users_run func args kwargs r :
  args !! (if contains "has_object" (__name__ func) then 1 else 0)
    = Some (VRequest r) →
  call (authenticated_users func) args kwargs
  = (if user_is_authenticated (user r) then call func args kwargs
     else py_ret false).
Proof.
  intros H. cbn [call authenticated_users].
  destruct (contains "has_object" (__name__ func));
    [destruct args as [|a0 [|a1 args]] | destruct args as [|a0 args]];
    try discriminate H; cbn in H; injection H as ->;
    unfold index, get_user, py_bind; cbn;
    by destruct (user_is_authenticated (user r)).
Qed.

Lemma unauthenticated_users_run func args kwargs r :
  args !! (if contains "has_object" (__name__ func) then 1 else 0)
    = Some (VRequest r) →
  call (unauthenticated_users func) args kwargs
  = (if user_is_authenticated (user r) then py_ret false
     else call func args kwargs).
Proof.
  intros H. cbn [call unauthenticated_users].
  destruct (contains "has_object" (__name__ func));
    [destruct args as [|a0 [|a1 args]] | destruct args as [|a0 args]];
    try discriminate H; cbn in H; injection H as ->;
    unfold index, get_user, py_bind; cbn;
    by destruct (user_is_authenticated (user r)).
Qed.

(** X1: [authenticated_users] lets the wrapped function run exactly when
    the request has a user and that user is authenticated; otherwise it
    answers false and the function does not run.  A request whose user is
    [None] is a plain false, not an error.  The wrapper keeps the name. *)
Theorem authenticated_users_gate func args kwargs r :
  args !! (if contains "has_object" (__name__ func) then 1 else 0)
    = Some (VRequest r) →
  __name__ (authenticated_users func) = __name__ func ∧
  call (authenticated_users func) args kwargs
  = (if user_is_authenticated (user r) then call func args kwargs
     else py_ret false) ∧
  (user r = None → call (authenticated_users func) args kwargs = py_ret false).
Proof.
  intros H. split; [reflexivity|].
  pose proof (authenticated_users_run func args kwargs r H) as Hcall.
  split; [exact Hcall|]. intros Hnone. by rewrite Hcall, Hnone.
Qed.

(** X2: [unauthenticated_users] is the mirror image: the wrapped function
    runs exactly when there is no user or the user is not authenticated. *)
Theorem unauthenticated_users_gate func args kwargs r :
  args !! (if contains "has_object" (__name__ func) then 1 else 0)
    = Some (VRequest r) →
  __name__ (unauthenticated_users func) = __name__ func ∧
  call (unauthenticated_users func) args kwargs
  = (if user_is_authenticated (user r) then py_ret false
     else call func args kwargs) ∧
  (user r = None →
   call (unauthenticated_users func) args kwargs = call func args kwargs).
Proof.
  intros H. split; [reflexivity|].
  pose proof (unauthenticated_users_run func args kwargs r H) as Hcall.
  split; [exact Hcall|]. intros Hnone. by rewrite Hcall, Hnone.
Qed.

(** X3: the two gates stacked, in either order, deny every request and
    never run the function: each layer reads the same request, because the
    wrappers keep the function's name. *)
Theorem authenticated_and_unauthenticated_deny func args kwargs r :
  args !! (if contains "has_object" (__name__ func) then 1 else 0)
    = Some (VRequest r) →
  call (authenticated_users (unauthenticated_users func)) args kwargs
    = py_ret false ∧
  call (unauthenticated_users (authenticated_users func)) args kwargs
    = py_ret false.
Proof.
  intros H.
  pose proof (authenticated_users_run (unauthenticated_users func)
                args kwargs r H) as Hau.
  pose proof (unauthenticated_users_run (authenticated_users func)
                args kwargs r H) as Hua.
  pose proof (authenticated_users_run func args kwargs r H) as Ha.
  pose proof (unauthenticated_users_run func args kwargs r H) as Hu.
  rewrite Hau, Hua, Ha, Hu.
  by destruct (user_is_authenticated (user r)).
Qed.

(** X4: what the wrappers do with arguments they cannot read.  Called
    with no positional argument each of the three raises [IndexError]; an
    object permission called with one argument raises [IndexError]; and
    when the object at the request's place has no [user] attribute (it
    is [None], a boolean, a string, or an instance without one) they raise
    the attribute error on [user].  In these cases the wrapped function
    never runs.  An instance that has a [user] attribute is read like a
    request. *)
Theorem wrappers_on_unreadable_arguments
    (decorator : @Function World → @Function World) func kwargs :
  decorator ∈ [allow_staff_or_superuser; authenticated_users;
               unauthenticated_users] →
  call (decorator func) [] kwargs = py_raise IndexError ∧
  (contains "has_object" (__name__ func) = true →
   ∀ a0, call (decorator func) [a0] kwargs = py_raise IndexError) ∧
  (∀ args v,
     args !! (if contains "has_object" (__name__ func) then 1 else 0)
       = Some v →
     (∀ r, v ≠ VRequest r) →
     (∀ o, v = VInstance o → obj_user o = None) →
     call (decorator func) args kwargs = py_raise (AttributeError "user")) ∧
  (∀ args o u,
     args !! (if contains "has_object" (__name__ func) then 1 else 0)
       = Some (VInstance o) →
     obj_user o = Some u →
     (decorator = allow_staff_or_superuser →
      ∀ account, u = Some account →
      call (decorator func) args kwargs
      = (if is_staff account || is_superuser account then py_ret true
         else call func args kwargs)) ∧
     (decorator = authenticated_users →
      call (decorator func) args kwargs
      = (if user_is_authenticated u then call func args kwargs
         else py_ret false)) ∧
     (decorator = unauthenticated_users →
      call (decorator func) args kwargs
      = (if user_is_authenticated u then py_ret false
         else call func args kwargs))).
Proof.
  intros Hd.
  assert (Hcases : decorator = allow_staff_or_superuser
                   ∨ decorator = authenticated_users
                   ∨ decorator = unauthenticated_users).
  { set_solver. }
  clear Hd. split; [|split; [|split]].
  - by destruct Hcases as [-> | [-> | ->] ].
  - intros Hn a0. destruct Hcases as [-> | [-> | ->] ]; cbn; by rewrite Hn.
  - intros args v Hv Hnot Hnone.
    destruct Hcases as [-> | [-> | ->] ]; cbn;
      (destruct (contains "has_object" (__name__ func));
       [destruct args as [|a0 [|a1 args]] | destruct args as [|a0 args]];
       try discriminate Hv; cbn in Hv; injection Hv as ->;
       unfold index, get_user, py_bind; cbn;
       destruct v as [| | |r|o];
       first [ reflexivity
             | by destruct (Hnot r)
             | by rewrite (Hnone o eq_refl) ]).
  - intros args o u Hv Hu. clear Hcases.
    assert (Hread : ∀ k : option User → Py World bool,
              (request <- index args 0 ;;
               request <- (if contains "has_object" (__name__ func)
                           then index args 1 else py_ret request) ;;
               u0 <- get_user request ;; k u0) = k u).
    { intros k.
      destruct (contains "has_object" (__name__ func));
        [destruct args as [|a0 [|a1 args]] | destruct args as [|a0 args]];
        try discriminate Hv; cbn in Hv; injection Hv as ->;
        unfold index, get_user, py_bind; cbn; by rewrite Hu. }
    repeat split.
    + intros -> account ->. cbn [call allow_staff_or_superuser].
      rewrite (Hread (λ u0, privileged <- staff_or_superuser u0 ;;
                            if privileged then py_ret true
                            else call func args kwargs)).
      unfold staff_or_superuser, py_bind. cbn.
      by destruct (is_staff account || is_superuser account).
    + intros ->. cbn [call authenticated_users].
      rewrite (Hread (λ u0, if negb (user_is_authenticated u0)
                            then py_ret false else call func args kwargs)).
      by destruct (user_is_authenticated u).
    + intros ->. cbn [call unauthenticated_users].
      by rewrite (Hread (λ u0, if user_is_authenticated u0 then py_ret false
                               else call func args kwargs)).
Qed.

(** X5: the staff bypass and the authentication gate do not commute.
    With the bypass outermost a staff or superuser account passes whether
    or not it is authenticated; with the gate outermost an unauthenticated
    account is denied even when it is staff.  On a request without a user
    the first raises the attribute error on [is_staff] and the second
    answers false. *)
Theorem staff_bypass_and_authentication_order func args kwargs r :
  args !! (if contains "has_object" (__name__ func) then 1 else 0)
    = Some (VRequest r) →
  (∀ u, user r = Some u →
     call (allow_staff_or_superuser (authenticated_users func)) args kwargs
     = (if is_staff u || is_superuser u then py_ret true
        else if is_authenticated u then call func args kwargs
        else py_ret false) ∧
     call (authenticated_users (allow_staff_or_superuser func)) args kwargs
     = (if is_authenticated u
        then if is_staff u || is_superuser u then py_ret true
             else call func args kwargs
        else py_ret false)) ∧
  (user r = None →
     call (allow_staff_or_superuser (authenticated_users func)) args kwargs
     = py_raise (AttributeError "is_staff") ∧
     call (authenticated_users (allow_staff_or_superuser func)) args kwargs
     = py_ret false).
Proof.
  intros H. split.
  - intros u Hu.
    assert (Hargs : ∀ f : @Function World, __name__ f = __name__ func →
              (contains "has_object" (__name__ f) = true →
               args !! 1 = Some (VRequest r)) ∧
              (contains "has_object" (__name__ f) = false →
               args !! 0 = Some (VRequest r))).
    { intros f ->. split; intros E; by rewrite E in H. }
    pose proof (authenticated_users_run func args kwargs r H) as Ha.
    pose proof (authenticated_users_run (allow_staff_or_superuser func)
                  args kwargs r H) as Has.
    assert (Hstaff : ∀ f : @Function World, __name__ f = __name__ func →
              call (allow_staff_or_superuser f) args kwargs
              = (if is_staff u || is_superuser u then py_ret true
                 else call f args kwargs)).
    { intros f Hf. apply (allow_staff_or_superuser_run f args kwargs r u);
        [by rewrite Hf | done]. }
    split.
    + rewrite (Hstaff (authenticated_users func) eq_refl), Ha.
      unfold user_is_authenticated. by rewrite Hu.
    + rewrite Has, (Hstaff func eq_refl).
      unfold user_is_authenticated. by rewrite Hu.
  - intros Hnone. split.
    + cbn [call allow_staff_or_superuser authenticated_users __name__].
      destruct r as [meth usr]. cbn in Hnone. subst usr.
      destruct (contains "has_object" (__name__ func));
        [destruct args as [|a0 [|a1 args]] | destruct args as [|a0 args]];
        try discriminate H; cbn in H; injection H as ->; done.
    + rewrite (authenticated_users_run (allow_staff_or_superuser func)
                 args kwargs r H). by rewrite Hnone.
Qed.

End Decorators.

(** * More of the code: the gate, the field and the filter *)

Section MoreOfTheGate.

Context {World : Type} {QuerySet : Type}.
Variable SAFE_METHODS : list string.

Implicit Types (self : DRYPermissions) (request : Request)
  (view : @View World) (obj : @Instance World)
  (model_class : @ModelClass World).

(** X6: a serializer without a model.  [has_permission] stops with the
    assertion error that names the view, before it looks at the action or
    at any method; [has_object_permission] makes no such check and
    resolves on the instance as usual, printing the model as [None] in
    its own error; [bind] stops with the assertion error that names the
    serializer, in every mode. *)
Theorem serializer_without_model self request view obj
    (field : @DRYPermissionsField World) field_name (p : @Serializer World) :
  Meta_model view = None →
  serializer_model p = None →
  (global_permissions self = true →
     has_permission SAFE_METHODS self request view
     = py_raise (AssertionError
         ("global_permissions set to true without a model set on the serializer for '"
            +:+ view_class_name view +:+ "'"))) ∧
  (∀ a m,
     object_permissions self = true →
     action view = Some a →
     obj_attrs obj
       !! ("has_object_" +:+ _get_action self a +:+ "_permission") = Some m →
     has_object_permission SAFE_METHODS self request view obj = m request) ∧
  (object_permissions self = true →
   action view = None →
   method request ∈ SAFE_METHODS →
   obj_attrs obj !! "has_object_read_permission" = None →
     has_object_permission SAFE_METHODS self request view obj
     = py_raise (AssertionError
         "'None' does not have 'has_object_read_permission' defined.")) ∧
  bind field field_name p
  = py_raise (AssertionError
      ("DRYPermissions is used on '" +:+ serializer_class_name p
         +:+ "' without a model")).
Proof.
  intros Hm Hp. repeat split.
  - intros Hg. unfold has_permission. by rewrite Hg, Hm.
  - intros a m Ho Ha Hs. by eapply has_object_permission_specific.
  - intros Ho Ha Hsafe Hr. unfold has_object_permission.
    rewrite Ho, Ha, Hm. cbn.
    by rewrite (general_check_read_missing _ _ _ _ _ _ _ Hsafe Hr).
  - unfold bind. by rewrite Hp.
Qed.

(** X7: each check invokes at most one method and adds nothing to it.
    For a view that yields its serializer's [Meta.model] (the gate reads
    [view.get_serializer_class().Meta.model] without a guard, and a view
    here always answers that read), the outcome of a check is true with
    the world untouched (the check is disabled), an assertion error with
    the world untouched, or exactly the outcome of one method found on the
    model (on the instance, for the object check): every call of a
    permission method is guarded by [hasattr] or by an assertion. *)
Theorem gate_invokes_at_most_one_method self request view obj w :
  (has_permission SAFE_METHODS self request view w = (Ok true, w)
   ∨ (∃ msg, has_permission SAFE_METHODS self request view w
             = (Raise (AssertionError msg), w))
   ∨ (∃ model_class name m,
        Meta_model view = Some model_class ∧
        model_attrs model_class !! name = Some m ∧
        has_permission SAFE_METHODS self request view = m request)) ∧
  (has_object_permission SAFE_METHODS self request view obj w = (Ok true, w)
   ∨ (∃ msg, has_object_permission SAFE_METHODS self request view obj w
             = (Raise (AssertionError msg), w))
   ∨ (∃ name m,
        obj_attrs obj !! name = Some m ∧
        has_object_permission SAFE_METHODS self request view obj = m request)).
Proof.
  assert (Hgeneral : ∀ (attrs : gmap string (@Method World)) mc rn wn amn,
    (∃ msg, general_check SAFE_METHODS attrs mc rn wn amn request w
            = (Raise (AssertionError msg), w))
    ∨ (∃ name m, attrs !! name = Some m ∧
         general_check SAFE_METHODS attrs mc rn wn amn request = m request)).
  { intros attrs mc rn wn amn.
    destruct (decide (method request ∈ SAFE_METHODS)) as [Hs|Hs].
    - destruct (attrs !! rn) as [m|] eqn:E.
      + right. exists rn, m. split; [done|]. by apply general_check_read.
      + left. eexists. by rewrite general_check_read_missing.
    - destruct (attrs !! wn) as [m|] eqn:E.
      + right. exists wn, m. split; [done|]. by apply general_check_write.
      + left. eexists. by rewrite general_check_write_missing. }
  split.
  - unfold has_permission.
    destruct (global_permissions self); cbn; [|by left].
    destruct (Meta_model view) as [mc|] eqn:Em; [|right; left; by eexists].
    right.
    destruct (action view) as [a|].
    + destruct (model_attrs mc
                  !! ("has_" +:+ _get_action self a +:+ "_permission"))
        as [m|] eqn:E.
      * right.
        exists mc, ("has_" +:+ _get_action self a +:+ "_permission"), m.
        repeat split; [done|].
        by rewrite (hasattr_true _ _ _ E), (call_attr_Some _ _ _ _ E).
      * rewrite (hasattr_false _ _ E).
        destruct (Hgeneral (model_attrs mc) (Some mc) "has_read_permission"
                    "has_write_permission"
                    (Some ("has_" +:+ _get_action self a +:+ "_permission")))
          as [?|(name & m & ? & ?)]; [by left|].
        right. by exists mc, name, m.
    + destruct (Hgeneral (model_attrs mc) (Some mc) "has_read_permission"
                  "has_write_permission" None)
        as [?|(name & m & ? & ?)]; [by left|].
      right. by exists mc, name, m.
  - unfold has_object_permission.
    destruct (object_permissions self); cbn; [|by left].
    right.
    destruct (action view) as [a|].
    + destruct (obj_attrs obj
                  !! ("has_object_" +:+ _get_action self a +:+ "_permission"))
        as [m|] eqn:E.
      * right.
        exists ("has_object_" +:+ _get_action self a +:+ "_permission"), m.
        split; [done|].
        by rewrite (hasattr_true _ _ _ E), (call_attr_Some _ _ _ _ E).
      * rewrite (hasattr_false _ _ E). apply Hgeneral.
    + apply Hgeneral.
Qed.

(** X8: the two shortcut classes on one view decide what the full gate
    decides: [DRYGlobalPermissions] and [DRYObjectPermissions] together
    are [DRYPermissions]. *)
Theorem shortcut_classes_together view1 view2 request obj w :
  permission_classes view1 = [DRYGlobalPermissions; DRYObjectPermissions] →
  permission_classes view2 = [DRYPermissions_default] →
  view_class_name view1 = view_class_name view2 →
  action view1 = action view2 →
  Meta_model view1 = Meta_model view2 →
  dummy_check_permission SAFE_METHODS view1 request obj w
  = dummy_check_permission SAFE_METHODS view2 request obj w.
Proof.
  intros Hp1 Hp2 Hn Ha Hm.
  assert (Hglobal : has_permission SAFE_METHODS DRYGlobalPermissions request view1
                    = has_permission SAFE_METHODS DRYPermissions_default
                        request view2).
  { unfold has_permission. cbn. by rewrite Hn, Ha, Hm. }
  assert (Hobject : has_object_permission SAFE_METHODS DRYObjectPermissions
                      request view1 obj
                    = has_object_permission SAFE_METHODS DRYPermissions_default
                        request view2 obj).
  { unfold has_object_permission. cbn. by rewrite Ha, Hm. }
  unfold dummy_check_permission. rewrite Hp1, Hp2. cbn [map all_permit].
  rewrite Hglobal, Hobject.
  change (has_permission SAFE_METHODS DRYObjectPermissions request view1)
    with (py_ret (World := World) true).
  change (has_object_permission SAFE_METHODS DRYGlobalPermissions request
            view1 obj) with (py_ret (World := World) true).
  unfold py_bind. cbn.
  destruct (has_permission SAFE_METHODS DRYPermissions_default request view2 w)
    as [[[]|e] w1]; cbn; [|done..].
  by destruct (has_object_permission SAFE_METHODS DRYPermissions_default
                 request view2 obj w1) as [[[]|e] w2].
Qed.


End MoreOfTheGate.

Section MoreOfTheField.

Context {World : Type} {QuerySet : Type}.
Variable SAFE_METHODS : list string.




Lemma for_each_ext {A S} (body1 body2 : S → A → Py World S) l :
  (∀ s x w, x ∈ l → body1 s x w = body2 s x w) →
  ∀ s w, for_each body1 l s w = for_each body2 l s w.
Proof.
  induction l as [|x l IH]; intros Hbody s w; [done|].
  cbn [for_each]. rewrite !py_bind_run, Hbody by set_solver.
  destruct (body2 s x w) as [[s'|e] w']; [|done].
  apply IH. intros. apply Hbody. set_solver.
Qed.

(** X11: in the [global_only] mode the report does not depend on the
    instance being serialized: no method of the instance is looked up or
    invoked, whatever [bind] recorded. *)
Theorem global_only_ignores_the_instance (self : @DRYPermissionsField World)
    (value1 value2 : @Instance World) w :
  global_only self = true →
  to_representation self value1 w = to_representation self value2 w.
Proof.
  intros Hg. unfold to_representation. apply for_each_ext.
  intros results [a names] w0 _. unfold represent_action. rewrite Hg. cbn.
  apply py_bind_ext. intros results1 w1. by destruct (mn_object names).
Qed.





(** ** The filter backend *)

Lemma append_length (a b : string) :
  String.length (a +:+ b) = String.length a + String.length b.
Proof. induction a as [|c a IH]; [done|]. rewrite append_cons. cbn. lia. Qed.

Lemma append_inj_r (a b s : string) : a +:+ s = b +:+ s → a = b.
Proof.
  revert b. induction a as [|c a IH]; intros [|c' b] H.
  - done.
  - apply (f_equal String.length) in H.
    rewrite append_nil, append_cons in H. cbn in H.
    rewrite append_length in H. lia.
  - apply (f_equal String.length) in H.
    rewrite append_nil, append_cons in H. cbn in H.
    rewrite append_length in H. lia.
  - rewrite !append_cons in H. injection H as -> H. by rewrite (IH b H).
Qed.

(** X14: which methods a list request can reach.  Without action routing
    only [filter_list_queryset] matters; with it, a view without an action
    raises the attribute error on [action], and for every action but
    [list] the backend's [filter_list_queryset] is not used, overridden or
    not; for [list] the routed method is [filter_list_queryset] itself, so
    a routed backend that does not override it raises the base class's
    assertion error. *)
Theorem list_request_reach
    (self other : @DRYPermissionFiltersBase World QuerySet) request
    (queryset : QuerySet) (view : @View World) :
  kwargs view !! lookup_field view = None →
  (action_routing self = false → action_routing other = false →
   subclass_methods self !! "filter_list_queryset"
     = subclass_methods other !! "filter_list_queryset" →
   filter_queryset self request queryset view
   = filter_queryset other request queryset view) ∧
  (action_routing self = true → action view = None →
   filter_queryset self request queryset view
   = py_raise (AttributeError "action")) ∧
  (action_routing self = true → action_routing other = true →
   ∀ a, action view = Some a → a ≠ "list" →
   (∀ name, name ≠ "filter_list_queryset" →
      subclass_methods self !! name = subclass_methods other !! name) →
   filter_queryset self request queryset view
   = filter_queryset other request queryset view) ∧
  (action_routing self = true → action view = Some "list" →
   subclass_methods self !! "filter_list_queryset" = None →
   filter_queryset self request queryset view
   = py_raise (AssertionError
       ("Method filter_list_queryset must be overridden on '"
          +:+ view_class_name view +:+ "'"))).
Proof.
  intros Hk. repeat split.
  - intros Hs Ho Hsame.
    rewrite !filter_queryset_list by done.
    unfold getattr_filter. by rewrite Hsame.
  - intros Hs Ha. unfold filter_queryset. rewrite Hk, Hs, Ha.
    rewrite bool_decide_eq_false_2; [done|]. by intros [? ?].
  - intros Hs Ho a Ha Hne Hsame.
    rewrite !(filter_queryset_routed _ _ _ _ a) by done.
    assert (Hname : "filter_" +:+ a +:+ "_queryset" ≠ "filter_list_queryset").
    { change "filter_list_queryset" with ("filter_" +:+ "list" +:+ "_queryset").
      intros H. apply Hne.
      apply (inj (String.app "filter_")) in H. by apply append_inj_r in H. }
    unfold getattr_filter. rewrite (Hsame _ Hname).
    destruct (subclass_methods other !! ("filter_" +:+ a +:+ "_queryset"));
      [done|].
    by destruct (String.eqb_spec ("filter_" +:+ a +:+ "_queryset")
                   "filter_list_queryset").
  - intros Hs Ha Hnone.
    rewrite (filter_queryset_routed _ _ _ _ "list") by done.
    unfold getattr_filter.
    change ("filter_" +:+ "list" +:+ "_queryset") with "filter_list_queryset".
    by rewrite Hnone.
Qed.

End MoreOfTheField.

Section Totality.

Context {World : Type}.



End Totality.

(** * The further properties at work on the concrete models *)

(** X1 at work: a logged-in user reaches the function, an anonymous one
    and a request without a user are denied without reaching it. *)
Lemma authenticated_users_gate_witness :
  call (authenticated_users has_publish_permission)
    [VRequest request_retrieve] ∅ []
  = (Ok false, ["has_publish_permission"])
  ∧ call (authenticated_users has_object_publish_permission)
      [VInstance test_instance; VRequest request_anonymous] ∅ []
    = (Ok false, [])
  ∧ call (authenticated_users has_publish_permission)
      [VRequest request_without_user] ∅ []
    = (Ok false, []).
Proof.
  split; [|split].
  - destruct (authenticated_users_gate has_publish_permission
                [VRequest request_retrieve] ∅ request_retrieve eq_refl)
      as (_ & -> & _). reflexivity.
  - destruct (authenticated_users_gate has_object_publish_permission
                [VInstance test_instance; VRequest request_anonymous] ∅
                request_anonymous eq_refl) as (_ & -> & _). reflexivity.
  - destruct (authenticated_users_gate has_publish_permission
                [VRequest request_without_user] ∅ request_without_user
                eq_refl) as (_ & _ & Hnone).
    rewrite (Hnone eq_refl). reflexivity.
Defined.

(** X2 at work. *)
Lemma unauthenticated_users_gate_witness :
  call (unauthenticated_users has_publish_permission)
    [VRequest request_retrieve] ∅ []
  = (Ok false, [])
  ∧ call (unauthenticated_users has_publish_permission)
      [VRequest request_without_user] ∅ []
    = (Ok false, ["has_publish_permission"]).
Proof.
  split.
  - destruct (unauthenticated_users_gate has_publish_permission
                [VRequest request_retrieve] ∅ request_retrieve eq_refl)
      as (_ & -> & _). reflexivity.
  - destruct (unauthenticated_users_gate has_publish_permission
                [VRequest request_without_user] ∅ request_without_user
                eq_refl) as (_ & _ & Hnone).
    rewrite (Hnone eq_refl). reflexivity.
Defined.

(** X3 at work. *)
Lemma authenticated_and_unauthenticated_deny_witness :
  call (authenticated_users (unauthenticated_users has_publish_permission))
    [VRequest request_retrieve] ∅ []
  = (Ok false, [])
  ∧ call (unauthenticated_users (authenticated_users has_publish_permission))
      [VRequest request_anonymous] ∅ []
    = (Ok false, []).
Proof.
  split.
  - destruct (authenticated_and_unauthenticated_deny has_publish_permission
                [VRequest request_retrieve] ∅ request_retrieve eq_refl)
      as [-> _]. reflexivity.
  - destruct (authenticated_and_unauthenticated_deny has_publish_permission
                [VRequest request_anonymous] ∅ request_anonymous eq_refl)
      as [_ ->]. reflexivity.
Defined.

(** X4 at work: an object permission called without its request, a
    wrapper handed a model instance without a [user] where the request
    should be, and one handed an instance whose [user] is a staff
    account. *)
Lemma wrappers_on_unreadable_arguments_witness :
  call (authenticated_users has_object_publish_permission)
    [VInstance test_instance] ∅ []
  = (Raise IndexError, [])
  ∧ call (allow_staff_or_superuser has_publish_permission)
      [VInstance test_instance] ∅ []
    = (Raise (AttributeError "user"), [])
  ∧ call (allow_staff_or_superuser has_publish_permission)
      [VInstance staff_owned_instance] ∅ []
    = (Ok true, []).
Proof.
  split; [|split].
  - destruct (wrappers_on_unreadable_arguments authenticated_users
                has_object_publish_permission ∅) as (_ & Hshort & _).
    { set_solver. }
    rewrite (Hshort eq_refl). reflexivity.
  - destruct (wrappers_on_unreadable_arguments allow_staff_or_superuser
                has_publish_permission ∅) as (_ & _ & Hother & _).
    { set_solver. }
    rewrite (Hother [VInstance test_instance] (VInstance test_instance)
               eq_refl); [reflexivity | discriminate |].
    intros o [= <-]. reflexivity.
  - destruct (wrappers_on_unreadable_arguments allow_staff_or_superuser
                has_publish_permission ∅) as (_ & _ & _ & Hduck).
    { set_solver. }
    destruct (Hduck [VInstance staff_owned_instance] staff_owned_instance
                (Some staff_user) eq_refl eq_refl) as (Hstaff & _).
    rewrite (Hstaff eq_refl staff_user eq_refl). reflexivity.
Defined.

(** X5 at work: a staff account that is not logged in passes one stack
    and is denied by the other. *)
Lemma staff_bypass_and_authentication_order_witness :
  call (allow_staff_or_superuser (authenticated_users has_publish_permission))
    [VRequest request_stale_staff] ∅ []
  = (Ok true, [])
  ∧ call (authenticated_users (allow_staff_or_superuser has_publish_permission))
      [VRequest request_stale_staff] ∅ []
    = (Ok false, [])
  ∧ call (allow_staff_or_superuser (authenticated_users has_publish_permission))
      [VRequest request_without_user] ∅ []
    = (Raise (AttributeError "is_staff"), []).
Proof.
  destruct (staff_bypass_and_authentication_order has_publish_permission
              [VRequest request_stale_staff] ∅ request_stale_staff eq_refl)
    as [Hsome _].
  destruct (Hsome stale_staff_user eq_refl) as [-> ->].
  destruct (staff_bypass_and_authentication_order has_publish_permission
              [VRequest request_without_user] ∅ request_without_user eq_refl)
    as [_ Hnone].
  destruct (Hnone eq_refl) as [-> _].
  repeat split.
Defined.

(** X6 at work. *)
Lemma serializer_without_model_witness :
  has_permission DRF_SAFE_METHODS DRYPermissions_default request_retrieve
    modelless_view []
  = (Raise (AssertionError
       "global_permissions set to true without a model set on the serializer for 'TestViewSet'"),
     [])
  ∧ has_object_permission DRF_SAFE_METHODS DRYPermissions_default
      request_retrieve modelless_view test_instance []
    = (Ok true, ["has_object_retrieve_permission"])
  ∧ bind permissions_field "permissions" ModellessSerializer []
    = (Raise (AssertionError
         "DRYPermissions is used on 'ModellessSerializer' without a model"),
       []).
Proof.
  destruct (serializer_without_model DRF_SAFE_METHODS DRYPermissions_default
              request_retrieve modelless_view test_instance permissions_field
              "permissions" ModellessSerializer eq_refl eq_refl)
    as (Hglobal & Hobject & _ & Hbind).
  rewrite (Hglobal eq_refl), Hbind.
  rewrite (Hobject "retrieve"
             (logged "has_object_retrieve_permission" true)
             eq_refl eq_refl eq_refl).
  repeat split.
Defined.

(** X8 at work. *)
Lemma shortcut_classes_together_witness :
  dummy_check_permission DRF_SAFE_METHODS
    (doubly_guarded_view TestModel (Some "retrieve"))
    request_retrieve test_instance []
  = (Ok true, ["has_retrieve_permission"; "has_object_retrieve_permission"]).
Proof.
  rewrite (shortcut_classes_together DRF_SAFE_METHODS
             (doubly_guarded_view TestModel (Some "retrieve"))
             (test_view TestModel (Some "retrieve"))
             request_retrieve test_instance [] eq_refl eq_refl eq_refl eq_refl
             eq_refl).
  reflexivity.
Defined.



(** X11 at work: the bound global-only field reports the same on an
    instance with object methods and on one without any. *)
Lemma global_only_ignores_the_instance_witness :
  match bind global_only_field "permissions" TestSerializer [] with
  | (Ok bound, _) =>
      to_representation bound test_instance []
      = to_representation bound bare_instance []
  | _ => False
  end.
Proof.
  cbn. apply global_only_ignores_the_instance. reflexivity.
Defined.



(** X14 at work: the routed backend ignores its own
    [filter_list_queryset] for [custom_action1]; routed to [list] without
    an override it raises the base class's assertion error. *)
Lemma list_request_reach_witness :
  filter_queryset RoutedWithListBackend request_retrieve [1; 2; 3; 4]
    (test_view TestModel (Some "custom_action1")) []
  = (Ok [2; 4], ["filter"])
  ∧ filter_queryset RoutedFilterBackend request_retrieve [1; 2; 3; 4]
      (test_view TestModel (Some "list")) []
    = (Raise (AssertionError
         "Method filter_list_queryset must be overridden on 'TestViewSet'"),
       [])
  ∧ filter_queryset RoutedFilterBackend request_retrieve [1; 2; 3; 4]
      (test_view TestModel None) []
    = (Raise (AttributeError "action"), []).
Proof.
  split; [|split].
  - destruct (list_request_reach RoutedWithListBackend RoutedFilterBackend
                request_retrieve [1; 2; 3; 4]
                (test_view TestModel (Some "custom_action1")) eq_refl)
      as (_ & _ & Hrouted & _).
    rewrite (Hrouted eq_refl eq_refl "custom_action1" eq_refl);
      [reflexivity | discriminate |].
    intros name Hname. cbn. by rewrite lookup_insert_ne.
  - destruct (list_request_reach RoutedFilterBackend RoutedFilterBackend
                request_retrieve [1; 2; 3; 4]
                (test_view TestModel (Some "list")) eq_refl)
      as (_ & _ & _ & Hlist).
    rewrite (Hlist eq_refl eq_refl eq_refl). reflexivity.
  - destruct (list_request_reach RoutedFilterBackend RoutedFilterBackend
                request_retrieve [1; 2; 3; 4] (test_view TestModel None)
                eq_refl) as (_ & Hnone & _).
    rewrite (Hnone eq_refl eq_refl). reflexivity.
Defined.

